(** * Voice-chat front end: interaction workflow and chat-history store

    A shallow embedding of [gradio_app/app.py]: the history store
    ([load_chat_history], [save_chat_history], [clear_history]) and the
    request/response orchestrator ([voice_chat]); after them the rendering
    of the transcript ([format_chat_history]) and the event chains that
    tie the handlers to the interface.

    The Python functions act on the filesystem, the clock and an HTTP
    endpoint and use exceptions for failure.  They are embedded as
    computations in a state-and-exception monad over an explicit [World];
    an exception keeps the state changes made before it was raised, as in
    Python.

    Modelling boundary.  The environment can fail where the source guards
    against it with [try]/[except] or with an explicit post-check
    (serialising and writing the recorded audio, opening it for upload, the
    HTTP exchange, decoding an error body, writing the reply audio, and
    reading, parsing and writing the history file) and at [os.remove],
    which [clear_history] calls without a handler.  The history that
    [voice_chat] is given is any value that [load_chat_history] can hand
    over, a list or not, and [history + [...]] raises on a value that is
    not a list.  The clock, [os.path.exists], the logger and the progress
    callback are total.  Logger and progress calls change neither the
    results nor the files and are left out; their places are marked in
    comments. *)

From Stdlib Require Import ZArith Ascii String DecimalString.
From stdpp Require Import base option list strings gmap.

Local Open Scope string_scope.
Local Open Scope list_scope.
Local Open Scope Z_scope.

(** ** Python values *)

(** The values that travel through JSON: what [json.load] can return and
    what [json.dump] is given. A dict is a finite map on its string keys.
    Numbers are integers; the program never computes with a number it
    reads, it only formats one into a message. *)
#[warnings="-register-all"]
Inductive PyVal : Type :=
| PNone
| PBool (b : bool)
| PInt (n : Z)
| PStr (s : string)
| PList (l : list PyVal)
| PDict (d : gmap string PyVal).

(** A turn as [voice_chat] writes it into the history: the list
    [[user_msg, ai_msg, timestamp]] of a string, a string or [None], and
    a string. *)
Definition Turn : Type := (string * option string * string)%type.

Definition turn_value (t : Turn) : PyVal :=
  PList [PStr t.1.1; from_option PStr PNone t.1.2; PStr t.2].

(** ** Exceptions *)

(** The exception classes the handlers of [voice_chat] tell apart.
    [requests.exceptions.ConnectTimeout] derives from both
    [ConnectionError] and [Timeout]; everything else that derives from
    [Exception] is [OtherError]. *)
Inductive Exception : Type :=
| Timeout (msg : string)
| ConnectionError (msg : string)
| ConnectTimeout (msg : string)
| OtherError (msg : string).

(** [str(e)] *)
Definition str (e : Exception) : string :=
  match e with
  | Timeout m | ConnectionError m | ConnectTimeout m | OtherError m => m
  end.

(** [isinstance(e, requests.exceptions.Timeout)] *)
Definition is_Timeout (e : Exception) : bool :=
  match e with Timeout _ | ConnectTimeout _ => true | _ => false end.

(** [isinstance(e, requests.exceptions.ConnectionError)] *)
Definition is_ConnectionError (e : Exception) : bool :=
  match e with ConnectionError _ | ConnectTimeout _ => true | _ => false end.

(** ** Libraries and process configuration *)

(** What the program takes from its libraries and its process environment:
    [scipy.io.wavfile] (serialising samples, or refusing them with an
    error text), [json] (text of a value, value of a text), Python's
    [repr] of a value that is not a string, and [tempfile.gettempdir()].
    Of [json] one law is kept: the text it writes for a list of turns
    reads back as that list. *)
Class Platform : Type := {
  Samples : Type;
  wavfile_encode : Z -> Samples -> string + string;
  json_dumps : PyVal -> string;
  json_loads : string -> option PyVal;
  py_repr : PyVal -> string;
  tempdir : string;
  json_round_trip (turns : list Turn) :
    json_loads (json_dumps (PList (turn_value <$> turns)))
    = Some (PList (turn_value <$> turns))
}.

(** ** HTTP *)

Record Request : Type := {
  url : string;
  field : string;
  filename : string;
  payload : string;
  mimetype : string;
  timeout : Z
}.

Record Response : Type := {
  status_code : Z;
  content : string
}.

Inductive Reply : Type :=
| Raises (e : Exception)
| Responds (r : Response).

(** ** The world *)

(** How the filesystem treats a write to a path. [Vanishes] and
    [ZeroLength] are the situations the post-checks of [voice_chat] look
    for: the write call returns, yet no file, or an empty one, is there.
    [unreadable] gives the paths that cannot be opened for reading and
    [undeletable] the paths whose entry cannot be unlinked, each with the
    text of the exception. *)
Inductive Disk : Type :=
| Sound
| OpenRaises (msg : string)
| WriteRaises (msg : string)
| Vanishes
| ZeroLength.

Record World : Type := {
  files : gmap string string;
  disk : string -> Disk;
  unreadable : string -> option string;
  undeletable : string -> option string;
  wall_clock : string;
  epoch : Z;
  server : Request -> Reply;
  latency : Z;
  exchanges : list (Request * Reply)
}.

Definition set_files (f : gmap string string -> gmap string string) (w : World) : World :=
  {| files := f (files w); disk := disk w; unreadable := unreadable w;
     undeletable := undeletable w; wall_clock := wall_clock w; epoch := epoch w; server := server w;
     latency := latency w; exchanges := exchanges w |}.

Definition after_exchange (q : Request) (a : Reply) (w : World) : World :=
  {| files := files w; disk := disk w; unreadable := unreadable w;
     undeletable := undeletable w; wall_clock := wall_clock w;
     epoch := epoch w + latency w; server := server w;
     latency := latency w; exchanges := exchanges w ++ [(q, a)] |}.

(** ** State and exceptions *)

Inductive Result (A : Type) : Type :=
| Ok (a : A)
| Raise (e : Exception).
Arguments Ok {A} a.
Arguments Raise {A} e.

Definition M (A : Type) : Type := World -> Result A * World.

#[global] Instance M_ret : MRet M := fun A a w => (Ok a, w).

#[global] Instance M_bind : MBind M := fun A B k m w =>
  match m w with
  | (Ok a, w') => k a w'
  | (Raise e, w') => (Raise e, w')
  end.

Definition raise {A} (e : Exception) : M A := fun w => (Raise e, w).

(** [try: m  except Exception as e: h e] *)
Definition try_except {A} (m : M A) (h : Exception -> M A) : M A :=
  fun w => match m w with
           | (Ok a, w') => (Ok a, w')
           | (Raise e, w') => h e w'
           end.

(** ** Operating-system and library calls *)

(** [os.path.join(a, b)] for a relative [b] (POSIX). *)
Definition ends_with_slash (a : string) : bool :=
  match String.rev a with
  | String c _ => bool_decide (c = "/"%char)
  | EmptyString => false
  end.

Definition path_join (a b : string) : string :=
  if bool_decide (a = "") || ends_with_slash a then a +:+ b else a +:+ "/" +:+ b.

(** [str(n)] for an integer. *)
Definition decimal (n : Z) : string := NilZero.string_of_int (Z.to_int n).

(** [os.path.exists(p)] *)
Definition path_exists (p : string) : M bool :=
  fun w => (Ok (if files w !! p is Some _ then true else false), w).

(** [os.path.getsize(p)] *)
Definition getsize (p : string) : M Z :=
  fun w => match files w !! p with
           | Some data => (Ok (Z.of_nat (String.length data)), w)
           | None => (Raise (OtherError ("No such file or directory: " +:+ p)), w)
           end.

(** [os.remove(p)]: raises when there is no such entry, and when the
    entry is one that may not be unlinked. *)
Definition os_remove (p : string) : M unit :=
  fun w => match files w !! p with
           | Some _ =>
             match undeletable w p with
             | Some m => (Raise (OtherError m), w)
             | None => (Ok tt, set_files (delete p) w)
             end
           | None => (Raise (OtherError ("No such file or directory: " +:+ p)), w)
           end.

(** [with open(p, "w") as f: f.write(data)], text or binary. *)
Definition write_file (p data : string) : M unit :=
  fun w => match disk w p with
           | Sound => (Ok tt, set_files <[p := data]> w)
           | OpenRaises m => (Raise (OtherError m), w)
           | WriteRaises m => (Raise (OtherError m), set_files <[p := ""]> w)
           | Vanishes => (Ok tt, set_files (delete p) w)
           | ZeroLength => (Ok tt, set_files <[p := ""]> w)
           end.

(** [with open(p, "r") as f: f.read()], text or binary. *)
Definition read_file (p : string) : M string :=
  fun w => match unreadable w p with
           | Some m => (Raise (OtherError m), w)
           | None =>
             match files w !! p with
             | Some data => (Ok data, w)
             | None => (Raise (OtherError ("No such file or directory: " +:+ p)), w)
             end
           end.

(** [datetime.now().strftime("%H:%M:%S")] *)
Definition strftime_now : M string := fun w => (Ok (wall_clock w), w).

(** [int(time.time())] *)
Definition time_time : M Z := fun w => (Ok (epoch w), w).

(** [requests.post(url, files={field: (filename, f, mimetype)}, timeout=t)] *)
Definition requests_post (q : Request) : M Response :=
  fun w => let a := server w q in
           match a with
           | Raises e => (Raise e, after_exchange q a w)
           | Responds r => (Ok r, after_exchange q a w)
           end.

(** [scipy.io.wavfile.write(p, sr, data)] *)
Definition wavfile_write `{Platform} (p : string) (sr : Z) (data : Samples) : M unit :=
  match wavfile_encode sr data with
  | inl err => raise (OtherError err)
  | inr bytes => write_file p bytes
  end.

(** [response.json()] *)
Definition response_json `{Platform} (r : Response) : M PyVal :=
  match json_loads (content r) with
  | Some v => mret v
  | None => raise (OtherError "Expecting value")
  end.

(** [v.get(key, default)]: only a dict has the method. *)
Definition py_get (v : PyVal) (key : string) (dflt : PyVal) : M PyVal :=
  match v with
  | PDict d => mret (default dflt (d !! key))
  | _ => raise (OtherError "object has no attribute 'get'")
  end.

(** [type(v).__name__] *)
Definition type_name (v : PyVal) : string :=
  match v with
  | PNone => "NoneType"
  | PBool _ => "bool"
  | PInt _ => "int"
  | PStr _ => "str"
  | PList _ => "list"
  | PDict _ => "dict"
  end.

(** [v + l] for a list [l]: a list is concatenated, every other value
    raises [TypeError]. *)
Definition py_add (v : PyVal) (l : list PyVal) : M PyVal :=
  match v with
  | PList l0 => mret (PList (l0 ++ l))
  | PStr _ =>
    raise (OtherError ("can only concatenate str (not "
                       +:+ String "034" ("list" +:+ String "034" ") to str")))
  | _ =>
    raise (OtherError ("unsupported operand type(s) for +: '"
                       +:+ type_name v +:+ "' and 'list'"))
  end.

(** A value inside an f-string: [str(v)], which for a string is the
    string itself and for the other values is their [repr]. *)
Definition py_str `{Platform} (v : PyVal) : string :=
  match v with
  | PStr s => s
  | _ => py_repr v
  end.

(** ** The application: [gradio_app/app.py] *)

Definition HISTORY_PATH `{Platform} : string :=
  path_join tempdir "voice_chat_history.json".

Definition API_URL : string := "http://localhost:8000/voice-chat".

Definition REQUEST_TIMEOUT : Z := 300.

(** Lines 21-29. *)
Definition load_chat_history `{Platform} : M PyVal :=
  present ← path_exists HISTORY_PATH;
  if present : bool then
    try_except
      (text ← read_file HISTORY_PATH;
       match json_loads text with
       | Some v => mret v
       | None => raise (OtherError "Expecting value")
       end)
      (fun e => (* logger.error *) mret (PList []))
  else mret (PList []).

(** Lines 32-37. *)
Definition save_chat_history `{Platform} (history : PyVal) : M unit :=
  try_except
    (write_file HISTORY_PATH (json_dumps history))
    (fun e => (* logger.error *) mret tt).

(** What [voice_chat] returns: the path of the reply audio or [None], the
    history, and the status message. *)
Definition Outcome : Type := (option string * PyVal * string)%type.

(** Lines 40-153. A [return] inside a [try] body or a handler ends the
    call: the inner [try] blocks yield [inl] of the returned triple, or
    [inr] of what the code after the block goes on with. An exception of
    [history + [...]] inside a handler of an inner [try] goes to the outer
    handler, and one inside the outer handler leaves the call. *)
Definition voice_chat `{Platform}
    (audio : option (Z * Samples)) (history : PyVal) : M Outcome :=
  match audio with
  | None => mret (None, history, "⚠️ Mohon rekam suara terlebih dahulu")
  | Some (sr, audio_data) =>
    timestamp ← strftime_now;
    (* logger.info; progress(0) *)
    try_except
      (now ← time_time;
       let audio_filename := "input_" +:+ decimal now +:+ ".wav" in
       let audio_path := path_join tempdir audio_filename in
       wavfile_write audio_path sr audio_data;;
       saved ← path_exists audio_path;
       if negb saved then
         mret (None, history, "⚠️ Gagal menyimpan file audio")
       else
         (* progress(0.3) *)
         sent ← try_except
           (f ← read_file audio_path;
            response ← requests_post
              {| url := API_URL; field := "file"; filename := audio_filename;
                 payload := f; mimetype := "audio/wav";
                 timeout := REQUEST_TIMEOUT |};
            mret (inr response))
           (fun e =>
              if is_Timeout e then
                let error_msg := "🕒 Waktu permintaan habis. Server membutuhkan waktu terlalu lama untuk merespons." in
                history' ← py_add history [PList [PStr error_msg; PNone; PStr timestamp]];
                mret (inl (None, history', error_msg))
              else if is_ConnectionError e then
                let error_msg := "🔌 Tidak dapat terhubung ke server. Pastikan server berjalan di http://localhost:8000" in
                history' ← py_add history [PList [PStr error_msg; PNone; PStr timestamp]];
                mret (inl (None, history', error_msg))
              else
                let error_msg := "🔴 Error: " +:+ str e in
                history' ← py_add history [PList [PStr error_msg; PNone; PStr timestamp]];
                mret (inl (None, history', error_msg)));
         match sent with
         | inl returned => mret returned
         | inr response =>
           (* progress(0.7) *)
           if bool_decide (status_code response = 200) then
             if bool_decide (content response = "") then
               let error_msg := "⚠️ Server mengembalikan respons kosong" in
               history' ← py_add history [PList [PStr error_msg; PNone; PStr timestamp]];
               mret (None, history', error_msg)
             else
               now' ← time_time;
               let output_audio_path :=
                 path_join tempdir ("tts_output_" +:+ decimal now' +:+ ".wav") in
               stored ← try_except
                 (write_file output_audio_path (content response);;
                  present ← path_exists output_audio_path;
                  missing_or_empty ←
                    (if negb present then mret true
                     else size ← getsize output_audio_path; mret (bool_decide (size = 0)));
                  if missing_or_empty : bool then
                    let error_msg := "⚠️ File audio respons kosong atau tidak valid" in
                    history' ← py_add history [PList [PStr error_msg; PNone; PStr timestamp]];
                    mret (inl (None, history', error_msg))
                  else mret (inr tt))
                 (fun e =>
                    let error_msg := "⚠️ Gagal menyimpan file audio respons: " +:+ str e in
                    history' ← py_add history [PList [PStr error_msg; PNone; PStr timestamp]];
                    mret (inl (None, history', error_msg)));
               match stored with
               | inl returned => mret returned
               | inr _ =>
                 let user_message := "🎤 Pesan Suara" in
                 let ai_message := "🔊 Balasan Suara" in
                 new_history ←
                   py_add history [PList [PStr user_message; PStr ai_message; PStr timestamp]];
                 save_chat_history new_history;;
                 (* progress(1.0) *)
                 mret (Some output_audio_path, new_history, "✅ Berhasil mendapatkan respons")
               end
           else
             let fallback := PStr ("Kode status: " +:+ decimal (status_code response)) in
             error_detail ← try_except
               (error_content ← (if bool_decide (content response = "")
                                 then mret (PDict ∅) else response_json response);
                py_get error_content "message" fallback)
               (fun _ => mret fallback);
             let error_msg := "⚠️ Server Error: " +:+ py_str error_detail in
             history' ← py_add history [PList [PStr error_msg; PNone; PStr timestamp]];
             mret (None, history', error_msg)
         end)
      (fun e =>
         let error_msg := "⚠️ Terjadi kesalahan: " +:+ str e in
         history' ← py_add history [PList [PStr error_msg; PNone; PStr timestamp]];
         mret (None, history', error_msg))
  end.

(** Lines 156-159. *)
Definition clear_history `{Platform} : M (list PyVal * string) :=
  present ← path_exists HISTORY_PATH;
  (if present : bool then os_remove HISTORY_PATH else mret tt);;
  mret ([], "🗑️ Riwayat percakapan telah dihapus").

(** ** Vocabulary of the statements *)

(** The history entry of a failed call: [[error_msg, None, timestamp]]. *)
Definition error_turn (error_msg timestamp : string) : PyVal :=
  PList [PStr error_msg; PNone; PStr timestamp].

(** The history entry of a successful call. *)
Definition success_turn (timestamp : string) : PyVal :=
  PList [PStr "🎤 Pesan Suara"; PStr "🔊 Balasan Suara"; PStr timestamp].

(** Where a call that starts at second [t] puts the recorded audio, and
    where a call whose reply arrives at second [t] puts the reply audio. *)
Definition input_audio_path `{Platform} (t : Z) : string :=
  path_join tempdir ("input_" +:+ decimal t +:+ ".wav").

Definition output_audio_path `{Platform} (t : Z) : string :=
  path_join tempdir ("tts_output_" +:+ decimal t +:+ ".wav").

(** A write to [p] raises with the text [m]. *)
Definition write_raises (w : World) (p m : string) : Prop :=
  disk w p = OpenRaises m \/ disk w p = WriteRaises m.

(** The operations of a call that can raise, with what they raise: the
    serialisation of the samples, the write of the recording, the opening
    of the recording for upload, the HTTP transport, the write of the
    reply, and the decoding of the body of an error response. *)
Inductive Fault : Type :=
| SerialiseRaises (err : string)
| RecordingWriteRaises (msg : string)
| UploadOpenRaises (msg : string)
| TransportRaises (e : Exception)
| ReplyWriteRaises (msg : string)
| BodyDecodeRaises (r : Response).

(** The message field of a response body that parses as structured data,
    following the wording of the specification. *)
Definition body_message `{Platform} (r : Response) : option PyVal :=
  if bool_decide (content r = "") then None
  else match json_loads (content r) with
       | Some (PDict d) => d !! "message"
       | _ => None
       end.

(** The text of a ServerError. *)
Definition server_error_text `{Platform} (r : Response) : string :=
  "⚠️ Server Error: " +:+
  match body_message r with
  | Some v => py_str v
  | None => "Kode status: " +:+ decimal (status_code r)
  end.

(** The request [voice_chat] sends for a recording made at second [t]
    whose file holds [f]. *)
Definition upload_request (t : Z) (f : string) : Request :=
  {| url := API_URL; field := "file";
     filename := "input_" +:+ decimal t +:+ ".wav";
     payload := f; mimetype := "audio/wav"; timeout := REQUEST_TIMEOUT |}.

(** The text the three transport handlers produce for an exception. *)
Definition transport_error_text (e : Exception) : string :=
  if is_Timeout e then
    "🕒 Waktu permintaan habis. Server membutuhkan waktu terlalu lama untuk merespons."
  else if is_ConnectionError e then
    "🔌 Tidak dapat terhubung ke server. Pastikan server berjalan di http://localhost:8000"
  else "🔴 Error: " +:+ str e.

(** An error result that is recorded in the history. *)
Definition failure (history : list PyVal) (error_msg timestamp : string) : Outcome :=
  (None, PList (history ++ [error_turn error_msg timestamp]), error_msg).

(** [v + [...]] raises [e]: [v] is not a list. *)
Definition concat_raises (v : PyVal) (e : Exception) : Prop :=
  forall l w, py_add v l w = (Raise e, w).

(** The samples of the recording serialise. *)
Definition serialises `{Platform} (audio : option (Z * Samples)) : Prop :=
  exists sr data bytes, audio = Some (sr, data) /\ wavfile_encode sr data = inr bytes.

(** The body of a response does not decode to a dict: [response.json()]
    raises, or [.get] does on what it returned. *)
Definition undecodable `{Platform} (r : Response) : Prop :=
  content r <> ""
  /\ match json_loads (content r) with
     | Some (PDict _) => False
     | _ => True
     end.

(** [raised audio w w' flt]: in the call on [audio] that started in [w]
    and left [w'], the operation of [flt] was reached and raised. *)
Definition raised `{Platform}
    (audio : option (Z * Samples)) (w w' : World) (flt : Fault) : Prop :=
  match flt with
  | SerialiseRaises err =>
    exists sr data, audio = Some (sr, data) /\ wavfile_encode sr data = inl err
  | RecordingWriteRaises m =>
    serialises audio /\ write_raises w (input_audio_path (epoch w)) m
  | UploadOpenRaises m =>
    serialises audio
    /\ (disk w (input_audio_path (epoch w)) = Sound
        \/ disk w (input_audio_path (epoch w)) = ZeroLength)
    /\ unreadable w (input_audio_path (epoch w)) = Some m
  | TransportRaises e =>
    exists q, exchanges w' = exchanges w ++ [(q, Raises e)]
  | ReplyWriteRaises m =>
    (exists q r, exchanges w' = exchanges w ++ [(q, Responds r)]
                 /\ status_code r = 200 /\ content r <> "")
    /\ write_raises w (output_audio_path (epoch w + latency w)) m
  | BodyDecodeRaises r =>
    (exists q, exchanges w' = exchanges w ++ [(q, Responds r)])
    /\ status_code r <> 200 /\ undecodable r
  end.

(** The text of the handler that takes the exception of a fault: the outer
    handler of lines 150-153, the generic transport handler of lines 93-96
    for the recording that cannot be opened, the transport handlers of
    lines 83-96, the handler of lines 126-129, and the bare [except] of
    lines 145-146 with the line after it. *)
Definition handled (flt : Fault) : string :=
  match flt with
  | SerialiseRaises err => "⚠️ Terjadi kesalahan: " +:+ err
  | RecordingWriteRaises m => "⚠️ Terjadi kesalahan: " +:+ m
  | UploadOpenRaises m => "🔴 Error: " +:+ m
  | TransportRaises e => transport_error_text e
  | ReplyWriteRaises m => "⚠️ Gagal menyimpan file audio respons: " +:+ m
  | BodyDecodeRaises r => "⚠️ Server Error: Kode status: " +:+ decimal (status_code r)
  end.

(** ** The error taxonomy as a big-step relation

    One rule for each way a call with a recording and a list as history
    can end, by what the environment did. [voice_chat_ends sr data history
    w o w'] reads: the call on [(sr, data)] and the list [history] started
    in [w] returns [o] and leaves [w']. The rules are stated on the operations of the model, so
    that [voice_chat_classified] below ties every run of the code to
    exactly the rule it followed. *)
Inductive voice_chat_ends `{Platform} (sr : Z) (data : Samples)
    (history : list PyVal) (w : World) : Outcome -> World -> Prop :=
| Unexpected_encode err :
    wavfile_encode sr data = inl err ->
    voice_chat_ends sr data history w
      (failure history ("⚠️ Terjadi kesalahan: " +:+ err) (wall_clock w)) w
| Unexpected_write bytes e w1 :
    wavfile_encode sr data = inr bytes ->
    write_file (input_audio_path (epoch w)) bytes w = (Raise e, w1) ->
    voice_chat_ends sr data history w
      (failure history ("⚠️ Terjadi kesalahan: " +:+ str e) (wall_clock w)) w1
| SaveFailure bytes w1 :
    wavfile_encode sr data = inr bytes ->
    write_file (input_audio_path (epoch w)) bytes w = (Ok tt, w1) ->
    files w1 !! input_audio_path (epoch w) = None ->
    voice_chat_ends sr data history w
      (None, PList history, "⚠️ Gagal menyimpan file audio") w1
| TransportError_open bytes w1 e :
    wavfile_encode sr data = inr bytes ->
    write_file (input_audio_path (epoch w)) bytes w = (Ok tt, w1) ->
    is_Some (files w1 !! input_audio_path (epoch w)) ->
    read_file (input_audio_path (epoch w)) w1 = (Raise e, w1) ->
    voice_chat_ends sr data history w
      (failure history (transport_error_text e) (wall_clock w)) w1
| TransportError_post bytes w1 f e :
    wavfile_encode sr data = inr bytes ->
    write_file (input_audio_path (epoch w)) bytes w = (Ok tt, w1) ->
    read_file (input_audio_path (epoch w)) w1 = (Ok f, w1) ->
    server w1 (upload_request (epoch w) f) = Raises e ->
    voice_chat_ends sr data history w
      (failure history (transport_error_text e) (wall_clock w))
      (after_exchange (upload_request (epoch w) f) (Raises e) w1)
| ServerError bytes w1 f r :
    wavfile_encode sr data = inr bytes ->
    write_file (input_audio_path (epoch w)) bytes w = (Ok tt, w1) ->
    read_file (input_audio_path (epoch w)) w1 = (Ok f, w1) ->
    server w1 (upload_request (epoch w) f) = Responds r ->
    status_code r <> 200 ->
    voice_chat_ends sr data history w
      (failure history (server_error_text r) (wall_clock w))
      (after_exchange (upload_request (epoch w) f) (Responds r) w1)
| EmptyResponse bytes w1 f r :
    wavfile_encode sr data = inr bytes ->
    write_file (input_audio_path (epoch w)) bytes w = (Ok tt, w1) ->
    read_file (input_audio_path (epoch w)) w1 = (Ok f, w1) ->
    server w1 (upload_request (epoch w) f) = Responds r ->
    status_code r = 200 ->
    content r = "" ->
    voice_chat_ends sr data history w
      (failure history "⚠️ Server mengembalikan respons kosong" (wall_clock w))
      (after_exchange (upload_request (epoch w) f) (Responds r) w1)
| ResponseWriteFailure_raised bytes w1 f r e w3 :
    wavfile_encode sr data = inr bytes ->
    write_file (input_audio_path (epoch w)) bytes w = (Ok tt, w1) ->
    read_file (input_audio_path (epoch w)) w1 = (Ok f, w1) ->
    server w1 (upload_request (epoch w) f) = Responds r ->
    status_code r = 200 ->
    content r <> "" ->
    write_file (output_audio_path (epoch w + latency w)) (content r)
      (after_exchange (upload_request (epoch w) f) (Responds r) w1) = (Raise e, w3) ->
    voice_chat_ends sr data history w
      (failure history ("⚠️ Gagal menyimpan file audio respons: " +:+ str e) (wall_clock w))
      w3
| ResponseWriteFailure_empty bytes w1 f r w3 :
    wavfile_encode sr data = inr bytes ->
    write_file (input_audio_path (epoch w)) bytes w = (Ok tt, w1) ->
    read_file (input_audio_path (epoch w)) w1 = (Ok f, w1) ->
    server w1 (upload_request (epoch w) f) = Responds r ->
    status_code r = 200 ->
    content r <> "" ->
    write_file (output_audio_path (epoch w + latency w)) (content r)
      (after_exchange (upload_request (epoch w) f) (Responds r) w1) = (Ok tt, w3) ->
    files w3 !! output_audio_path (epoch w + latency w) = None \/
    files w3 !! output_audio_path (epoch w + latency w) = Some "" ->
    voice_chat_ends sr data history w
      (failure history "⚠️ File audio respons kosong atau tidak valid" (wall_clock w))
      w3
| Success bytes w1 f r w3 :
    wavfile_encode sr data = inr bytes ->
    write_file (input_audio_path (epoch w)) bytes w = (Ok tt, w1) ->
    read_file (input_audio_path (epoch w)) w1 = (Ok f, w1) ->
    server w1 (upload_request (epoch w) f) = Responds r ->
    status_code r = 200 ->
    content r <> "" ->
    write_file (output_audio_path (epoch w + latency w)) (content r)
      (after_exchange (upload_request (epoch w) f) (Responds r) w1) = (Ok tt, w3) ->
    files w3 !! output_audio_path (epoch w + latency w) = Some (content r) ->
    voice_chat_ends sr data history w
      (Some (output_audio_path (epoch w + latency w)),
       PList (history ++ [success_turn (wall_clock w)]),
       "✅ Berhasil mendapatkan respons")
      (save_chat_history (PList (history ++ [success_turn (wall_clock w)])) w3).2.

(** ** A test double for the libraries

    The theorems below hold for every [Platform]. To run the model on
    concrete inputs, [Mock] supplies one: samples are a list of integers
    written one byte each behind a four-letter tag, and [json] is a small
    printer and recursive-descent parser for null, booleans, integers,
    strings, arrays and objects. *)
Module Mock.

Definition dquote : ascii := "034"%char.

Definition join (sep : string) (l : list string) : string :=
  match l with
  | [] => ""
  | x :: xs => fold_left (fun acc y => acc +:+ sep +:+ y) xs x
  end.

Fixpoint escape (s : string) : string :=
  match s with
  | EmptyString => EmptyString
  | String c rest =>
    if (c =? dquote)%char then String "\" (String dquote (escape rest))
    else if (c =? "\")%char then String "\" (String "\" (escape rest))
    else if (c =? "010")%char then String "\" (String "n" (escape rest))
    else String c (escape rest)
  end.

Definition quoted (s : string) : string :=
  String dquote (escape s) +:+ String dquote "".

Fixpoint dumps (v : PyVal) : string :=
  match v with
  | PNone => "null"
  | PBool true => "true"
  | PBool false => "false"
  | PInt n => decimal n
  | PStr s => quoted s
  | PList l => "[" +:+ join ", " (map dumps l) +:+ "]"
  | PDict d =>
    "{" +:+ join ", " (map (fun kv => quoted kv.1 +:+ ": " +:+ kv.2)
                           (map_to_list (dumps <$> d))) +:+ "}"
  end.

Fixpoint repr (v : PyVal) : string :=
  match v with
  | PNone => "None"
  | PBool true => "True"
  | PBool false => "False"
  | PInt n => decimal n
  | PStr s => "'" +:+ s +:+ "'"
  | PList l => "[" +:+ join ", " (map repr l) +:+ "]"
  | PDict d =>
    "{" +:+ join ", " (map (fun kv => "'" +:+ kv.1 +:+ "': " +:+ kv.2)
                           (map_to_list (repr <$> d))) +:+ "}"
  end.

Definition is_space (c : ascii) : bool :=
  (c =? " ")%char || (c =? "010")%char || (c =? "013")%char || (c =? "009")%char.

Fixpoint skip_ws (s : string) : string :=
  match s with
  | String c rest => if is_space c then skip_ws rest else s
  | EmptyString => s
  end.

Definition unescape (c : ascii) : option ascii :=
  if (c =? dquote)%char then Some dquote
  else if (c =? "\")%char then Some "\"%char
  else if (c =? "/")%char then Some "/"%char
  else if (c =? "n")%char then Some "010"%char
  else if (c =? "t")%char then Some "009"%char
  else if (c =? "r")%char then Some "013"%char
  else None.

(** The characters of a string literal after its opening quote, and what
    follows the closing quote. *)
Fixpoint scan_string (s : string) : option (string * string) :=
  match s with
  | EmptyString => None
  | String c rest =>
    if (c =? dquote)%char then Some ("", rest)
    else if (c =? "\")%char then
      match rest with
      | String e rest' =>
        c' ← unescape e; '(t, r) ← scan_string rest'; Some (String c' t, r)
      | EmptyString => None
      end
    else '(t, r) ← scan_string rest; Some (String c t, r)
  end.

Definition digit (c : ascii) : option Z :=
  let n := Z.of_nat (nat_of_ascii c) in
  if bool_decide (48 <= n <= 57) then Some (n - 48) else None.

Fixpoint scan_digits (s : string) (acc : Z) : Z * string :=
  match s with
  | String c rest =>
    match digit c with
    | Some d => scan_digits rest (10 * acc + d)
    | None => (acc, s)
    end
  | EmptyString => (acc, s)
  end.

Definition scan_literal (lit : string) (v : PyVal) (s : string) : option (PyVal * string) :=
  if String.prefix lit s
  then Some (v, String.substring (String.length lit) (String.length s - String.length lit) s)
  else None.

Fixpoint parse_value (fuel : nat) (s : string) : option (PyVal * string) :=
  match fuel with
  | O => None
  | S fuel =>
    match skip_ws s with
    | EmptyString => None
    | String c rest =>
      if (c =? dquote)%char then '(t, r) ← scan_string rest; Some (PStr t, r)
      else if (c =? "[")%char then
        match skip_ws rest with
        | String "]" r => Some (PList [], r)
        | _ => '(l, r) ← parse_items fuel rest; Some (PList l, r)
        end
      else if (c =? "{")%char then
        match skip_ws rest with
        | String "}" r => Some (PDict ∅, r)
        | _ => '(d, r) ← parse_members fuel rest; Some (PDict d, r)
        end
      else if (c =? "-")%char then
        match rest with
        | String c' _ =>
          _ ← digit c'; let '(n, r) := scan_digits rest 0 in Some (PInt (- n), r)
        | EmptyString => None
        end
      else if digit c is Some _ then let '(n, r) := scan_digits (String c rest) 0 in Some (PInt n, r)
      else if (c =? "n")%char then scan_literal "null" PNone (String c rest)
      else if (c =? "t")%char then scan_literal "true" (PBool true) (String c rest)
      else if (c =? "f")%char then scan_literal "false" (PBool false) (String c rest)
      else None
    end
  end
with parse_items (fuel : nat) (s : string) : option (list PyVal * string) :=
  match fuel with
  | O => None
  | S fuel =>
    '(v, r) ← parse_value fuel s;
    match skip_ws r with
    | String "," r' => '(l, r'') ← parse_items fuel r'; Some (v :: l, r'')
    | String "]" r' => Some ([v], r')
    | _ => None
    end
  end
with parse_members (fuel : nat) (s : string) : option (gmap string PyVal * string) :=
  match fuel with
  | O => None
  | S fuel =>
    match skip_ws s with
    | String c rest =>
      if (c =? dquote)%char then
        '(k, r) ← scan_string rest;
        match skip_ws r with
        | String ":" r' =>
          '(v, r'') ← parse_value fuel r';
          match skip_ws r'' with
          | String "," r3 => '(d, r4) ← parse_members fuel r3; Some (<[k := v]> d, r4)
          | String "}" r3 => Some ({[k := v]}, r3)
          | _ => None
          end
        | _ => None
        end
      else None
    | EmptyString => None
    end
  end.

Definition loads (s : string) : option PyVal :=
  '(v, rest) ← parse_value (S (String.length s)) s;
  if bool_decide (skip_ws rest = "") then Some v else None.

Definition riff (data : list Z) : string :=
  "RIFF" +:+ string_of_list_ascii
               (map (fun x => ascii_of_nat (Z.to_nat (x `mod` 256))) data).

Definition encode (sr : Z) (data : list Z) : string + string :=
  if bool_decide (sr <= 0) then inl "sample rate must be positive"
  else inr (riff data).

(** *** The parser reads back what the printer writes for a history

    The law of [json] that [Platform] asks for, for this printer and this
    parser: in [loads] the fuel, one more than the length of the text, is
    enough for a list of turns. *)

Lemma append_cons c (a b : string) : String c a +:+ b = String c (a +:+ b).
Proof. reflexivity. Qed.

Lemma append_nil_l (b : string) : "" +:+ b = b.
Proof. reflexivity. Qed.

Lemma append_assoc (a b c : string) : (a +:+ b) +:+ c = a +:+ b +:+ c.
Proof.
  induction a as [|x a IH]; [done|].
  rewrite !append_cons. by rewrite IH.
Qed.

Lemma scan_escape s rest :
  scan_string (escape s +:+ String dquote rest) = Some (s, rest).
Proof.
  induction s as [|c s IH].
  - reflexivity.
  - cbn [escape].
    destruct (Ascii.eqb_spec c dquote) as [->|Hq].
    { rewrite !append_cons. cbn. rewrite IH. done. }
    destruct (Ascii.eqb_spec c "\"%char) as [->|Hb].
    { rewrite !append_cons. cbn. rewrite IH. done. }
    destruct (Ascii.eqb_spec c "010"%char) as [->|Hn].
    { rewrite !append_cons. cbn. rewrite IH. done. }
    rewrite append_cons. cbn [scan_string].
    destruct (Ascii.eqb_spec c dquote); [done|].
    destruct (Ascii.eqb_spec c "\"%char); [done|].
    rewrite IH. done.
Qed.

Ltac flatten := repeat first [rewrite append_assoc | rewrite append_cons | rewrite append_nil_l].

Lemma length_append (a b : string) :
  String.length (a +:+ b) = (String.length a + String.length b)%nat.
Proof. induction a as [|c a IH]; [done|]. rewrite append_cons. cbn. by rewrite IH. Qed.

Lemma substring_all s : String.substring 0 (String.length s) s = s.
Proof. induction s as [|c s IH]; [done|]. cbn. by rewrite IH. Qed.

Lemma parse_space f s : parse_value f (String " " s) = parse_value f s.
Proof. by destruct f. Qed.

Lemma parse_items_space f s : parse_items f (String " " s) = parse_items f s.
Proof. destruct f; [done|]. cbn [parse_items]. by rewrite parse_space. Qed.

Lemma parse_string f s rest :
  parse_value (S f) (quoted s +:+ rest) = Some (PStr s, rest).
Proof.
  unfold quoted. flatten. unfold dquote at 1 2. cbn. by rewrite scan_escape.
Qed.

Lemma parse_null f rest :
  parse_value (S f) ("null" +:+ rest) = Some (PNone, rest).
Proof.
  flatten. unfold dquote. cbn. unfold scan_literal. cbn.
  replace (digit "n") with (@None Z) by reflexivity.
  rewrite Nat.sub_0_r, substring_all. by destruct rest.
Qed.

Lemma parse_label f (a : option string) rest :
  parse_value (S f) (dumps (from_option PStr PNone a) +:+ rest)
  = Some (from_option PStr PNone a, rest).
Proof. destruct a; [apply parse_string|apply parse_null]. Qed.

Lemma parse_items_step f s :
  parse_items (S f) s
  = '(v, r) ← parse_value f s;
    match skip_ws r with
    | String "," r' => '(l, r'') ← parse_items f r'; Some (v :: l, r'')
    | String "]" r' => Some ([v], r')
    | _ => None
    end.
Proof. reflexivity. Qed.

Lemma dumps_turn (t : Turn) rest :
  dumps (turn_value t) +:+ rest
  = String "[" (quoted t.1.1 +:+ ", " +:+ dumps (from_option PStr PNone t.1.2)
                +:+ ", " +:+ quoted t.2 +:+ String "]" rest).
Proof.
  destruct t as [[u a] ts].
  cbn [turn_value dumps map join fold_left fst snd]. by flatten.
Qed.

Lemma parse_array_quoted f s x :
  parse_value (S f) (String "[" (quoted s +:+ x))
  = parse_items f (quoted s +:+ x) ≫= (λ '(l, r), Some (PList l, r)).
Proof. unfold quoted. flatten. reflexivity. Qed.

Lemma parse_array_array f x :
  parse_value (S f) (String "[" (String "[" x))
  = parse_items f (String "[" x) ≫= (λ '(l, r), Some (PList l, r)).
Proof. reflexivity. Qed.

Lemma parse_items_more f s v x :
  parse_value f s = Some (v, String "," (String " " x)) ->
  parse_items (S f) s = parse_items f x ≫= (λ '(l, r), Some (v :: l, r)).
Proof. intros E. rewrite parse_items_step, E. cbn. by rewrite parse_items_space. Qed.

Lemma parse_items_last f s v x :
  parse_value f s = Some (v, String "]" x) -> parse_items (S f) s = Some ([v], x).
Proof. intros E. by rewrite parse_items_step, E. Qed.

Lemma parse_turn f (t : Turn) rest :
  parse_value (S (S (S (S (S f))))) (dumps (turn_value t) +:+ rest)
  = Some (turn_value t, rest).
Proof.
  rewrite dumps_turn. destruct t as [[u a] ts]. cbn [fst snd].
  rewrite parse_array_quoted. flatten.
  rewrite (parse_items_more _ _ _ _ (parse_string _ _ _)).
  rewrite (parse_items_more _ _ _ _ (parse_label _ _ _)).
  rewrite (parse_items_last _ _ _ _ (parse_string _ _ _)).
  reflexivity.
Qed.

Lemma fold_left_append sep (l : list string) (a b : string) :
  fold_left (fun acc y => acc +:+ sep +:+ y) l (a +:+ b)
  = a +:+ fold_left (fun acc y => acc +:+ sep +:+ y) l b.
Proof.
  revert b. induction l as [|z l IH]; intros b; [done|].
  cbn [fold_left]. by rewrite append_assoc, IH.
Qed.

Lemma join_more sep x y l : join sep (x :: y :: l) = x +:+ sep +:+ join sep (y :: l).
Proof. unfold join. cbn [fold_left]. by rewrite !fold_left_append. Qed.

Lemma parse_items_turns (turns : list Turn) t f rest :
  parse_items (S (S (S (S (S (S (length turns + f)))))))
    (join ", " (dumps (turn_value t) :: map dumps (turn_value <$> turns))
     +:+ String "]" rest)
  = Some (turn_value t :: (turn_value <$> turns), rest).
Proof.
  revert t. induction turns as [|t' turns IH]; intros t.
  - cbn [length plus fmap list_fmap map join fold_left].
    by rewrite (parse_items_last _ _ _ _ (parse_turn _ _ _)).
  - cbn [fmap list_fmap map length plus]. rewrite join_more. flatten.
    rewrite (parse_items_more _ _ _ _ (parse_turn _ _ _)).
    by rewrite IH.
Qed.

Lemma length_turns (turns : list Turn) t rest :
  (length turns + 6 <=
   String.length (join ", " (dumps (turn_value t) :: map dumps (turn_value <$> turns))
                  +:+ rest))%nat.
Proof.
  revert t. induction turns as [|t' turns IH]; intros t.
  - cbn [length plus fmap list_fmap map join fold_left]. rewrite dumps_turn.
    unfold quoted. flatten.
    repeat first [rewrite length_append | progress cbn [String.length]]. lia.
  - cbn [fmap list_fmap map length plus]. rewrite join_more, append_assoc, dumps_turn.
    specialize (IH t').
    rewrite length_append in IH.
    repeat first [rewrite length_append | progress cbn [String.length]]. lia.
Qed.

Lemma parse_array_turns f t l rest :
  parse_value (S f) (String "[" (join ", " (dumps (turn_value t) :: l) +:+ rest))
  = parse_items f (join ", " (dumps (turn_value t) :: l) +:+ rest)
    ≫= (λ '(l, r), Some (PList l, r)).
Proof.
  destruct l as [|y l].
  - cbn [join fold_left]. rewrite dumps_turn. apply parse_array_array.
  - rewrite join_more, append_assoc, dumps_turn. apply parse_array_array.
Qed.

Lemma loads_dumps_turns (turns : list Turn) :
  loads (dumps (PList (turn_value <$> turns))) = Some (PList (turn_value <$> turns)).
Proof.
  destruct turns as [|t turns]; [reflexivity|].
  unfold loads. cbn [dumps fmap list_fmap map]. flatten.
  pose proof (length_turns turns t "]") as Hlen.
  rewrite parse_array_turns. cbn [String.length].
  match goal with |- context [parse_items (S ?n)] =>
    replace (S n) with (S (S (S (S (S (S (length turns + (n - length turns - 5))))))))
      by lia
  end.
  by rewrite parse_items_turns.
Qed.

#[export] Instance platform : Platform := {|
  Samples := list Z;
  wavfile_encode := encode;
  json_dumps := dumps;
  json_loads := loads;
  py_repr := repr;
  tempdir := "/tmp";
  json_round_trip := loads_dumps_turns
|}.

(** Worlds for concrete runs: the clock reads 12:00:01, the HTTP exchange
    takes two seconds, every file can be read and removed. *)
Definition world (fs : gmap string string) (dsk : string -> Disk)
    (srv : Request -> Reply) : World :=
  {| files := fs; disk := dsk; unreadable := fun _ => None;
     undeletable := fun _ => None; wall_clock := "12:00:01"; epoch := 1700000000; server := srv;
     latency := 2; exchanges := [] |}.

Definition healthy : string -> Disk := fun _ => Sound.

Definition faulty (p : string) (d : Disk) : string -> Disk :=
  fun q => if bool_decide (q = p) then d else Sound.

Definition answers (a : Reply) : Request -> Reply := fun _ => a.

Definition clip : option (Z * @Samples platform) := Some (16000, [0; 1; 2]).

(** The request the call on [clip] sends. *)
Definition clip_request : Request := upload_request 1700000000 (riff [0; 1; 2]).

Definition audio_reply : Response := {| status_code := 200; content := "RIFFxyz" |}.



(** The server answers with [r]; the filesystem is sound. *)
Definition replying (r : Response) : World := world ∅ healthy (answers (Responds r)).

(** The server does not answer in time. *)
Definition timing_out : World :=
  world ∅ healthy (answers (Raises (Timeout "Read timed out."))).

(** The recording is gone when [voice_chat] looks for it. *)
Definition losing_upload : World :=
  world ∅ (faulty "/tmp/input_1700000000.wav" Vanishes)
        (answers (Responds audio_reply)).

(** The reply file cannot be opened for writing. *)
Definition blocking_reply : World :=
  world ∅ (faulty "/tmp/tts_output_1700000002.wav" (OpenRaises "Permission denied"))
        (answers (Responds audio_reply)).

(** The history file cannot be opened for writing. *)
Definition blocking_history : World :=
  world ∅ (faulty "/tmp/voice_chat_history.json" (OpenRaises "Permission denied"))
        (answers (Responds audio_reply)).

(** The history file holds text that is not JSON. *)
Definition corrupt_history : World :=
  world {[ "/tmp/voice_chat_history.json" := "[[" ]} healthy
        (answers (Responds audio_reply)).

End Mock.

(** ** Rendering: [format_chat_history]

    The HTML of the source is full of double quotes. The templates below
    are the source text with a backquote where the source has a double
    quote, and [markup] puts the double quotes back; the values that the
    f-strings interpolate do not pass through [markup]. *)

Definition markup_char (c : ascii) : ascii :=
  if (c =? "`")%char then ascii_of_nat 34 else c.

Fixpoint markup (template : string) : string :=
  match template with
  | EmptyString => EmptyString
  | String c rest => String (markup_char c) (markup rest)
  end.

(** Lines 171-181, the f-string of the user bubble. *)
Definition user_bubble (user_msg timestamp : string) : string :=
  markup "
        <div class=`chat-row`>
            <div class=`chat-bubble user-bubble`>
                <div class=`chat-content`>
                    <div class=`chat-icon`>👤</div>
                    <div class=`chat-message`>"
  +:+ user_msg +:+
  markup "</div>
                </div>
                <div class=`timestamp`>"
  +:+ timestamp +:+
  markup "</div>
            </div>
        </div>
        ".

(** Lines 185-195, the f-string of the assistant bubble. *)
Definition assistant_bubble (ai_msg timestamp : string) : string :=
  markup "
            <div class=`chat-row`>
                <div class=`chat-bubble assistant-bubble`>
                    <div class=`chat-content`>
                        <div class=`chat-icon`>🤖</div>
                        <div class=`chat-message`>"
  +:+ ai_msg +:+
  markup "</div>
                    </div>
                    <div class=`timestamp`>"
  +:+ timestamp +:+
  markup "</div>
                </div>
            </div>
            ".

(** [if v:], the truth value of a Python value. *)
Definition truthy (v : PyVal) : bool :=
  match v with
  | PNone => false
  | PBool b => b
  | PInt n => negb (n =? 0)
  | PStr s => if s is EmptyString then false else true
  | PList l => if l is [] then false else true
  | PDict d => negb (bool_decide (size d = 0%nat))
  end.

(** How a rendering can end: with the markup, with an exception, or at a
    point where Python iterates over a string or a dict. A string iterates
    by code point and a dict by insertion order; the values of [PyVal]
    carry neither, and the model stops there with [None]. *)
Definition Rendering : Type := option (Result string).

(** Line 168, [user_msg, ai_msg, timestamp = entry]. *)
Definition unpack_entry (entry : PyVal) : option (Result (PyVal * PyVal * PyVal)) :=
  match entry with
  | PList [user_msg; ai_msg; timestamp] => Some (Ok (user_msg, ai_msg, timestamp))
  | PList l =>
    if bool_decide (length l < 3)%nat then
      Some (Raise (OtherError ("not enough values to unpack (expected 3, got "
                               +:+ decimal (Z.of_nat (length l)) +:+ ")")))
    else Some (Raise (OtherError "too many values to unpack (expected 3)"))
  | PNone => Some (Raise (OtherError "cannot unpack non-iterable NoneType object"))
  | PBool _ => Some (Raise (OtherError "cannot unpack non-iterable bool object"))
  | PInt _ => Some (Raise (OtherError "cannot unpack non-iterable int object"))
  | PStr _ | PDict _ => None
  end.

(** Lines 167-195, the loop, from the markup built so far. *)
Fixpoint format_entries `{Platform} (html : string) (entries : list PyVal) : Rendering :=
  match entries with
  | [] => Some (Ok html)
  | entry :: rest =>
    match unpack_entry entry with
    | Some (Ok (user_msg, ai_msg, timestamp)) =>
      let html := html +:+ user_bubble (py_str user_msg) (py_str timestamp) in
      let html :=
        if truthy ai_msg
        then html +:+ assistant_bubble (py_str ai_msg) (py_str timestamp)
        else html in
      format_entries html rest
    | Some (Raise e) => Some (Raise e)
    | None => None
    end
  end.

(** Lines 162-198. *)
Definition format_chat_history `{Platform} (history : PyVal) : Rendering :=
  if negb (truthy history) then
    Some (Ok "<div class='empty-history'>Belum ada percakapan. Mulai dengan merekam suara Anda.</div>")
  else
    let html := "<div class='chat-container'>" in
    match history with
    | PList entries =>
      match format_entries html entries with
      | Some (Ok html) => Some (Ok (html +:+ "</div>"))
      | other => other
      end
    | PStr _ =>
      (* each element is a string of one code point *)
      Some (Raise (OtherError "not enough values to unpack (expected 3, got 1)"))
    | PDict _ => None
    | PBool _ => Some (Raise (OtherError "'bool' object is not iterable"))
    | PInt _ => Some (Raise (OtherError "'int' object is not iterable"))
    | PNone => Some (Raise (OtherError "'NoneType' object is not iterable"))
    end.

(** ** The event chains of the interface

    Each chain is a handler followed by its [.then] handler; it yields the
    values of the output components of both. *)

(** Lines 546-554, [submit_btn.click(voice_chat).then(format_chat_history)]. *)
Definition submit_btn_click `{Platform}
    (audio_input : option (Z * Samples)) (history_state : PyVal)
    : M (Outcome * Rendering) :=
  '(audio_output, history_state, status_msg) ← voice_chat audio_input history_state;
  mret ((audio_output, history_state, status_msg),
        format_chat_history history_state).

(** Lines 557-564, [clear_btn.click(clear_history).then(format_chat_history)]. *)
Definition clear_btn_click `{Platform} : M (list PyVal * string * Rendering) :=
  '(history_state, status_msg) ← clear_history;
  mret (history_state, status_msg, format_chat_history (PList history_state)).

(** Lines 428 and 567-571, [gr.State(load_chat_history())] and
    [demo.load(format_chat_history)]: what a fresh process shows. *)
Definition demo_load `{Platform} : M (PyVal * Rendering) :=
  history_state ← load_chat_history;
  mret (history_state, format_chat_history history_state).

(** ** Vocabulary of the statements on rendering *)

(** A well-formed entry, [[user_msg, ai_msg, timestamp]]. *)
Definition as_entry (turn : PyVal * PyVal * PyVal) : PyVal :=
  PList [turn.1.1; turn.1.2; turn.2].

(** What one well-formed entry adds to the markup: the user bubble, and
    the assistant bubble when the assistant side is truthy. *)
Definition entry_markup `{Platform} (turn : PyVal * PyVal * PyVal) : string :=
  user_bubble (py_str turn.1.1) (py_str turn.2) +:+
  (if truthy turn.1.2 then assistant_bubble (py_str turn.1.2) (py_str turn.2) else "").

(** The bubbles of a list of well-formed entries, in order. *)
Fixpoint transcript `{Platform} (turns : list (PyVal * PyVal * PyVal)) : string :=
  match turns with
  | [] => ""
  | turn :: rest => entry_markup turn +:+ transcript rest
  end.

(** The placeholder of an empty history, line 164. *)
Definition empty_history_markup : string :=
  "<div class='empty-history'>Belum ada percakapan. Mulai dengan merekam suara Anda.</div>".

(** ** More concrete worlds and inputs *)
Module Stage.



(** A recording the serialiser of [Mock] refuses. *)
Definition bad_clip : option (Z * @Samples Mock.platform) := Some (0, [0; 1; 2]).

(** The history file holds the JSON text of [v]. *)
Definition saved (v : PyVal) : World :=
  Mock.world {[ "/tmp/voice_chat_history.json" := Mock.dumps v ]} Mock.healthy
             (Mock.answers (Responds Mock.audio_reply)).

(** An earlier turn. *)
Definition earlier : list (PyVal * PyVal * PyVal) :=
  [(PStr "halo", PNone, PStr "11:59:00")].

(** The history file holds one turn and cannot be opened for reading. *)
Definition locked_history : World :=
  {| files := {[ "/tmp/voice_chat_history.json" := Mock.dumps (PList (as_entry <$> earlier)) ]};
     disk := Mock.healthy;
     unreadable := fun p => if bool_decide (p = "/tmp/voice_chat_history.json")
                            then Some "Permission denied" else None;
     undeletable := fun _ => None; wall_clock := "12:00:01"; epoch := 1700000000;
     server := Mock.answers (Responds Mock.audio_reply); latency := 2;
     exchanges := [] |}.

(** The history file holds one turn and its entry cannot be unlinked: it
    belongs to somebody else in a sticky directory. *)
Definition pinned_history : World :=
  {| files := {[ "/tmp/voice_chat_history.json" := Mock.dumps (PList (as_entry <$> earlier)) ]};
     disk := Mock.healthy; unreadable := fun _ => None;
     undeletable := fun p => if bool_decide (p = "/tmp/voice_chat_history.json")
                             then Some "Operation not permitted" else None;
     wall_clock := "12:00:01"; epoch := 1700000000;
     server := Mock.answers (Raises (Timeout "Read timed out.")); latency := 2;
     exchanges := [] |}.




(** The recording file cannot be opened for writing. *)
Definition blocking_recording : World :=
  Mock.world ∅ (Mock.faulty "/tmp/input_1700000000.wav" (OpenRaises "Permission denied"))
             (Mock.answers (Responds Mock.audio_reply)).

(** The recording file can be written and cannot be opened for reading. *)
Definition locked_recording : World :=
  {| files := ∅; disk := Mock.healthy;
     unreadable := fun p => if bool_decide (p = "/tmp/input_1700000000.wav")
                            then Some "Permission denied" else None;
     undeletable := fun _ => None; wall_clock := "12:00:01"; epoch := 1700000000;
     server := Mock.answers (Responds Mock.audio_reply); latency := 2;
     exchanges := [] |}.

(** An error page in place of a JSON body. *)
Definition garbled_reply : Response :=
  {| status_code := 502; content := "<html>Bad Gateway</html>" |}.

End Stage.

(** ** Properties *)

Section Properties.
Context `{P : Platform}.

(** *** What the primitives leave behind *)

Lemma read_file_world p w r w1 : read_file p w = (r, w1) -> w1 = w.
Proof. unfold read_file. intros E. repeat case_match; by simplify_eq. Qed.

Lemma write_file_frame p data w r w1 :
  write_file p data w = (r, w1) ->
  disk w1 = disk w /\ unreadable w1 = unreadable w /\ wall_clock w1 = wall_clock w
  /\ epoch w1 = epoch w /\ server w1 = server w /\ latency w1 = latency w
  /\ exchanges w1 = exchanges w.
Proof. unfold write_file. intros E. case_match; by simplify_eq. Qed.

Lemma write_file_nonempty p data w w1 stored :
  write_file p data w = (Ok tt, w1) ->
  files w1 !! p = Some stored -> stored <> "" -> stored = data /\ disk w p = Sound.
Proof.
  unfold write_file. intros E. case_match; simplify_eq; cbn [set_files files];
    rewrite ?lookup_insert_eq, ?lookup_delete_eq; by intros; simplify_eq.
Qed.

Lemma read_file_Ok p w f w1 :
  read_file p w = (Ok f, w1) -> unreadable w p = None.
Proof. unfold read_file. destruct (unreadable w p); intros E; by simplify_eq. Qed.

Lemma save_chat_history_returns history w :
  save_chat_history history w = (Ok tt, (save_chat_history history w).2).
Proof.
  unfold save_chat_history, try_except.
  by destruct (write_file _ _ w) as [[[]|?] ?].
Qed.

Lemma length_zero (s : string) : Z.of_nat (String.length s) = 0 -> s = "".
Proof. by destruct s. Qed.

Lemma ends_failure sr data history w error_msg error_msg' w' :
  voice_chat_ends sr data history w (failure history error_msg' (wall_clock w)) w' ->
  error_msg = error_msg' ->
  voice_chat_ends sr data history w
    (None, PList (history ++ [PList [PStr error_msg; PNone; PStr (wall_clock w)]]),
     error_msg) w'.
Proof. by intros ? ->. Qed.

(** Every run of [voice_chat] on a recording and a list returns, and ends
    by one of the rules of the taxonomy. *)
Lemma voice_chat_classified sr data history w :
  exists o w', voice_chat (Some (sr, data)) (PList history) w = (Ok o, w')
               /\ voice_chat_ends sr data history w o w'.
Proof.
  cbv [voice_chat mbind mret M_bind M_ret try_except raise strftime_now
       time_time path_exists wavfile_write requests_post response_json
       py_get py_add getsize].
  destruct (wavfile_encode sr data) as [err|bytes] eqn:Henc.
  { eexists _, _. split; [reflexivity|]. by apply Unexpected_encode. }
  match goal with |- context [write_file ?p bytes w] =>
    destruct (write_file p bytes w) as [[[]|e] w1] eqn:Hin end.
  2:{ eexists _, _. split; [reflexivity|]. by eapply Unexpected_write. }
  destruct (files w1 !! path_join tempdir ("input_" +:+ decimal (epoch w) +:+ ".wav"))
    as [stored|] eqn:Hstored; cbv beta iota delta [negb].
  2:{ eexists _, _. split; [reflexivity|]. by eapply SaveFailure. }
  match goal with |- context [read_file ?p w1] =>
    destruct (read_file p w1) as [[f|e] w1'] eqn:Hread;
    [assert (w1' = w1) as -> by (by eapply read_file_world) ..] end.
  2:{ destruct (is_Timeout e) eqn:Ht; [|destruct (is_ConnectionError e) eqn:Hc];
      (eexists _, _; split; [reflexivity|]);
      (eapply ends_failure; [by eapply TransportError_open|]);
      unfold transport_error_text; by rewrite Ht, ?Hc. }
  match goal with |- context [server w1 ?q] =>
    destruct (server w1 q) as [e|response] eqn:Hpost end; cbv beta iota.
  { destruct (is_Timeout e) eqn:Ht; [|destruct (is_ConnectionError e) eqn:Hc];
      (eexists _, _; split; [reflexivity|]);
      (eapply ends_failure; [by eapply TransportError_post|]);
      unfold transport_error_text; by rewrite Ht, ?Hc. }
  destruct (write_file_frame _ _ _ _ _ Hin) as (_ & _ & _ & Hepoch & _ & Hlat & _).
  case_bool_decide as Hstatus; [case_bool_decide as Hbody|]; cbv beta iota.
  { eexists _, _. split; [reflexivity|]. by eapply EmptyResponse. }
  { cbn [after_exchange epoch]. rewrite Hepoch, Hlat.
    match goal with |- context [write_file ?p ?d ?v] =>
      destruct (write_file p d v) as [[[]|e] w3] eqn:Hout end.
    2:{ eexists _, _. split; [reflexivity|].
        eapply ends_failure; [by eapply ResponseWriteFailure_raised|done]. }
    match goal with |- context [files w3 !! ?p] =>
      destruct (files w3 !! p) as [reply|] eqn:Hreply end; cbv beta iota.
    2:{ eexists _, _. split; [reflexivity|].
        eapply ends_failure; [eapply ResponseWriteFailure_empty; eauto|done]. }
    rewrite Hreply. cbv beta iota. case_bool_decide as Hsize.
    { apply length_zero in Hsize as ->. eexists _, _. split; [reflexivity|].
      eapply ends_failure; [eapply ResponseWriteFailure_empty; eauto|done]. }
    assert (reply <> "") as Hne by (by intros ->).
    destruct (write_file_nonempty _ _ _ _ _ Hout Hreply Hne) as [-> _].
    rewrite save_chat_history_returns.
    eexists _, _. split; [reflexivity|]. by eapply Success. }
  case_bool_decide as Hbody; cbv beta iota.
  { eexists _, _. split; [reflexivity|].
    eapply ends_failure; [by eapply ServerError|].
    unfold server_error_text, body_message.
    by rewrite bool_decide_true, lookup_empty by done. }
  destruct (json_loads (content response)) as [v|] eqn:Hjson; cbv beta iota;
    [destruct v as [| | | | |d]|]; cbv beta iota;
    (eexists _, _; split; [reflexivity|]);
    (eapply ends_failure; [by eapply ServerError|]);
    unfold server_error_text, body_message;
    rewrite bool_decide_false, Hjson by done; try done.
  by destruct (d !! "message").
Qed.

Lemma save_chat_history_frame history w :
  let w1 := (save_chat_history history w).2 in
  disk w1 = disk w /\ unreadable w1 = unreadable w /\ wall_clock w1 = wall_clock w
  /\ epoch w1 = epoch w /\ server w1 = server w /\ latency w1 = latency w
  /\ exchanges w1 = exchanges w.
Proof.
  unfold save_chat_history, try_except.
  destruct (write_file _ _ w) as [[[]|?] ?] eqn:E; by apply write_file_frame in E.
Qed.

Lemma app_tail_ne {A} (l : list A) x : l <> l ++ [x].
Proof.
  intros E. apply (f_equal length) in E. rewrite length_app in E. simpl in E. lia.
Qed.

(** After inverting a rule: what each write left unchanged, and what the
    exchange log says about the reply. *)
Ltac frame :=
  repeat match goal with
  | H : write_file _ _ _ = _ |- _ =>
    destruct (write_file_frame _ _ _ _ _ H) as (? & ? & ? & ? & ? & ? & ?); revert H
  end; intros;
  repeat match goal with
  | |- context [save_chat_history ?h ?w] =>
    lazymatch goal with
    | _ : latency (save_chat_history h w).2 = _ |- _ => fail
    | _ => destruct (save_chat_history_frame h w) as (? & ? & ? & ? & ? & ? & ?)
    end
  | _ : context [save_chat_history ?h ?w] |- _ =>
    lazymatch goal with
    | _ : latency (save_chat_history h w).2 = _ |- _ => fail
    | _ => destruct (save_chat_history_frame h w) as (? & ? & ? & ? & ? & ? & ?)
    end
  end.

Ltac exchanged :=
  cbn [after_exchange exchanges disk unreadable wall_clock epoch server latency] in *;
  repeat match goal with
  | H : ?l = ?l ++ [_] |- _ => destruct (app_tail_ne _ _ H)
  | H : ?l ++ [_] = ?l |- _ => symmetry in H; destruct (app_tail_ne _ _ H)
  | H : _ ++ [_] = _ ++ [_] |- _ => apply app_inj_tail in H as [_ H]; simplify_eq
  | H : exchanges ?a = ?rhs, H' : context [exchanges ?a] |- _ =>
    lazymatch H with
    | H' => fail
    | _ => lazymatch rhs with
           | context [exchanges a] => fail
           | _ => rewrite H in H'
           end
    end
  end.


(** *** Paths *)

Lemma path_join_inj a b c : path_join a b = path_join a c -> b = c.
Proof.
  unfold path_join. destruct (_ || _); intros E.
  - by apply (inj (String.app a)) in E.
  - apply (inj (String.app a)) in E. by injection E.
Qed.

Lemma history_not_input t : HISTORY_PATH <> input_audio_path t.
Proof. intros E. apply path_join_inj in E. discriminate E. Qed.

Lemma history_not_output t : HISTORY_PATH <> output_audio_path t.
Proof. intros E. apply path_join_inj in E. discriminate E. Qed.

(** *** Files after a write *)

Lemma write_file_sound p data w r w1 :
  disk w p = Sound -> write_file p data w = (r, w1) ->
  r = Ok tt /\ files w1 !! p = Some data.
Proof.
  unfold write_file. intros -> [= <- <-]. split; [done|].
  cbn [set_files files]. apply lookup_insert_eq.
Qed.

Lemma write_file_modes p data w r w1 :
  write_file p data w = (r, w1) ->
  match disk w p with
  | Sound => r = Ok tt /\ files w1 !! p = Some data
  | OpenRaises m | WriteRaises m => r = Raise (OtherError m)
  | Vanishes => r = Ok tt /\ files w1 !! p = None
  | ZeroLength => r = Ok tt /\ files w1 !! p = Some ""
  end.
Proof.
  unfold write_file. destruct (disk w p); intros [= <- <-]; cbn [set_files files];
    rewrite ?lookup_insert_eq, ?lookup_delete_eq; done.
Qed.

Lemma write_file_other p p' data w r w1 :
  p' <> p -> write_file p data w = (r, w1) -> files w1 !! p' = files w !! p'.
Proof.
  unfold write_file. intros Hne E.
  case_match; simplify_eq; cbn [set_files files];
    by rewrite ?lookup_insert_ne, ?lookup_delete_ne.
Qed.

Lemma save_chat_history_other history w p :
  p <> HISTORY_PATH ->
  files (save_chat_history history w).2 !! p = files w !! p.
Proof.
  intros Hne. unfold save_chat_history, try_except.
  destruct (write_file _ _ w) as [[[]|?] ?] eqn:E; by eapply write_file_other.
Qed.

Lemma save_chat_history_sound history w :
  disk w HISTORY_PATH = Sound ->
  files (save_chat_history history w).2 !! HISTORY_PATH
  = Some (json_dumps history).
Proof.
  intros Hdisk. unfold save_chat_history, try_except.
  destruct (write_file _ _ w) as [r w1] eqn:E.
  destruct (write_file_sound _ _ _ _ _ Hdisk E) as [-> ?]. done.
Qed.




(** C1, amended: an error outcome of a call with a recording, other than
    SaveFailure, returns the input history with one turn appended whose
    user-side label is the error text and whose assistant side is [None];
    SaveFailure, like NoInput, returns the history unchanged. *)
Theorem voice_chat_error_turn audio history w h' msg :
  (voice_chat audio (PList history) w).1 = Ok (None, PList h', msg) ->
  audio <> None ->
  (msg <> "⚠️ Gagal menyimpan file audio" ->
   h' = history ++ [error_turn msg (wall_clock w)])
  /\ (msg = "⚠️ Gagal menyimpan file audio" -> h' = history).
Proof.
  destruct audio as [[sr data]|]; [|done].
  destruct (voice_chat_classified sr data history w) as (o & w' & -> & Hends).
  cbn [fst]. intros [= ->] _.
  inversion Hends; subst; unfold failure in *; simplify_eq; split; try done.
  all: unfold transport_error_text;
    by destruct (is_Timeout e), (is_ConnectionError e).
Qed.

(** C2, amended: only a successful call saves. When the call returns an
    output path and the history file can be written, the file holds the
    text of the full updated history when the call returns; when the call
    returns no output path, whatever it returns as history, the history
    file is as it was before the call. *)
Theorem voice_chat_persists audio history w out h' msg :
  (voice_chat audio (PList history) w).1 = Ok (out, PList h', msg) ->
  (is_Some out -> disk w HISTORY_PATH = Sound ->
   files (voice_chat audio (PList history) w).2 !! HISTORY_PATH
   = Some (json_dumps (PList h')))
  /\ (out = None ->
      files (voice_chat audio (PList history) w).2 !! HISTORY_PATH
      = files w !! HISTORY_PATH).
Proof.
  destruct audio as [[sr data]|].
  2:{ intros [= <- <- <-]. split; [by intros []|done]. }
  destruct (voice_chat_classified sr data history w) as (o & w' & -> & Hends).
  cbn [fst snd]. intros [= ->].
  inversion Hends; subst; unfold failure in *; simplify_eq;
    (split; [try by intros []|try done]); frame.
  1-8: cbn [after_exchange files];
    repeat match goal with
    | H : write_file (input_audio_path ?t) _ _ = (_, ?v) |- context [files ?v] =>
      rewrite (write_file_other _ _ _ _ _ _ (history_not_input t) H)
    | H : write_file (output_audio_path ?t) _ _ = (_, ?v) |- context [files ?v] =>
      rewrite (write_file_other _ _ _ _ _ _ (history_not_output t) H);
      cbn [after_exchange files]
    end; done.
  apply save_chat_history_sound.
  cbn [after_exchange disk] in *. congruence.
Qed.



(** *** The history store *)

Lemma load_chat_history_missing w :
  files w !! HISTORY_PATH = None -> load_chat_history w = (Ok (PList []), w).
Proof.
  intros E. unfold load_chat_history, mbind, M_bind, path_exists. by rewrite E.
Qed.

Lemma load_chat_history_present w text :
  files w !! HISTORY_PATH = Some text ->
  load_chat_history w
  = (Ok (if unreadable w HISTORY_PATH is Some _ then PList []
         else default (PList []) (json_loads text)), w).
Proof.
  intros E.
  unfold load_chat_history, mbind, M_bind, mret, M_ret, raise, path_exists,
    try_except, read_file.
  rewrite E. destruct (unreadable w HISTORY_PATH); [done|].
  rewrite E. by destruct (json_loads text).
Qed.

(** C7: [load_chat_history] never raises and leaves the world as it is; on
    a missing file, and on a file whose contents do not parse, it returns
    the empty list. *)
Theorem load_chat_history_degrades w :
  (exists v, load_chat_history w = (Ok v, w))
  /\ (files w !! HISTORY_PATH = None
      \/ (exists text, files w !! HISTORY_PATH = Some text /\ json_loads text = None) ->
      load_chat_history w = (Ok (PList []), w)).
Proof.
  split.
  - destruct (files w !! HISTORY_PATH) as [text|] eqn:E.
    + rewrite (load_chat_history_present _ _ E). eauto.
    + rewrite (load_chat_history_missing _ E). eauto.
  - intros [E|(text & E & Hparse)].
    + by apply load_chat_history_missing.
    + rewrite (load_chat_history_present _ _ E), Hparse.
      by destruct (unreadable w HISTORY_PATH).
Qed.

(** C3, amended: for every history of turns and every turn, when the
    filesystem takes the write of the history file and the file can be
    opened for reading, saving the history with the turn appended and then
    loading returns a list whose last element is that turn. *)
Theorem save_then_load (h : list Turn) (t : Turn) w :
  disk w HISTORY_PATH = Sound ->
  unreadable w HISTORY_PATH = None ->
  exists l,
    (load_chat_history
       (save_chat_history (PList ((turn_value <$> h) ++ [turn_value t])) w).2).1
    = Ok (PList l)
    /\ last l = Some (turn_value t).
Proof.
  intros Hdisk Hread.
  exists ((turn_value <$> h) ++ [turn_value t]). split; [|apply last_snoc].
  pose proof (save_chat_history_sound
                (PList ((turn_value <$> h) ++ [turn_value t])) w Hdisk) as Hfile.
  destruct (save_chat_history_frame
              (PList ((turn_value <$> h) ++ [turn_value t])) w) as (_ & Hu & _).
  rewrite (load_chat_history_present _ _ Hfile), Hu, Hread.
  change [turn_value t] with (turn_value <$> [t]).
  by rewrite <- fmap_app, json_round_trip.
Qed.

(** What [clear_history] does, by what is on disk. *)
Lemma clear_history_run w :
  clear_history w
  = match files w !! HISTORY_PATH with
    | None => (Ok ([], "🗑️ Riwayat percakapan telah dihapus"), w)
    | Some _ =>
      match undeletable w HISTORY_PATH with
      | Some m => (Raise (OtherError m), w)
      | None =>
        (Ok ([], "🗑️ Riwayat percakapan telah dihapus"),
         set_files (delete HISTORY_PATH) w)
      end
    end.
Proof.
  unfold clear_history, mbind, M_bind, path_exists, os_remove, mret, M_ret.
  destruct (files w !! HISTORY_PATH) as [text|] eqn:E; rewrite ?E; [|done].
  by destruct (undeletable w HISTORY_PATH).
Qed.

(** C9, amended: when there is no history file, or [os.remove] does not
    raise on it, [clear_history] returns the empty history and leaves no
    history file, and a load after it returns the empty list. When there
    is a history file and [os.remove] raises on it, [clear_history] raises
    that exception and leaves everything as it was, the file included. *)
Theorem clear_then_load w :
  (files w !! HISTORY_PATH = None \/ undeletable w HISTORY_PATH = None ->
   exists w',
     clear_history w = (Ok ([], "🗑️ Riwayat percakapan telah dihapus"), w')
     /\ files w' !! HISTORY_PATH = None
     /\ load_chat_history w' = (Ok (PList []), w'))
  /\ (forall m,
      is_Some (files w !! HISTORY_PATH) -> undeletable w HISTORY_PATH = Some m ->
      clear_history w = (Raise (OtherError m), w)).
Proof.
  unfold clear_history, mbind, M_bind, path_exists, os_remove, mret, M_ret.
  destruct (files w !! HISTORY_PATH) as [text|] eqn:E; rewrite ?E; split.
  - intros [? | ->]; [done|]. eexists. split; [reflexivity|].
    assert (files (set_files (delete HISTORY_PATH) w) !! HISTORY_PATH = None) as Hgone
      by apply lookup_delete_eq.
    split; [done|]. by apply load_chat_history_missing.
  - by intros m _ ->.
  - intros _. eexists. split; [reflexivity|]. split; [done|].
    by apply load_chat_history_missing.
  - by intros m [? ?].
Qed.

(** C8: without a recording [voice_chat] returns the NoInput message and
    the history it was given, and the world is the one it started in: no
    request was sent and no file was written. *)
Theorem voice_chat_no_input history w :
  voice_chat None history w
  = (Ok (None, history, "⚠️ Mohon rekam suara terlebih dahulu"), w)
  /\ exchanges (voice_chat None history w).2 = exchanges w
  /\ files (voice_chat None history w).2 = files w.
Proof. done. Qed.

Lemma read_file_raises p w e w1 :
  read_file p w = (Raise e, w1) ->
  match unreadable w p with
  | Some m => e = OtherError m
  | None => files w !! p = None
  end.
Proof.
  unfold read_file. destruct (unreadable w p); [by intros [= <- <-]|].
  destruct (files w !! p); by intros [= <- <-].
Qed.

Lemma server_error_text_undecodable r :
  undecodable r ->
  server_error_text r = "⚠️ Server Error: Kode status: " +:+ decimal (status_code r).
Proof.
  unfold undecodable, server_error_text, body_message. intros [Hbody Hjson].
  rewrite bool_decide_false by done.
  by destruct (json_loads (content r)) as [[]|].
Qed.

Ltac unpack :=
  repeat match goal with
  | H : _ /\ _ |- _ => destruct H
  | H : exists _, _ |- _ => destruct H
  end.

(** C10, amended: on every input whose history is a list, [voice_chat]
    returns a triple and lets no exception out; and when an operation of
    the call raises (the serialisation of the samples, the write of the
    recording, the opening of the recording for upload, the HTTP
    transport, the write of the reply, the decoding of an error body) the
    triple is the error result of the handler that takes the exception:
    no output path, the history with the handler's text appended as an
    error turn, and that text as status message. *)
Theorem voice_chat_total audio history w :
  (exists out h' msg, (voice_chat audio (PList history) w).1 = Ok (out, h', msg))
  /\ (forall flt,
      raised audio w (voice_chat audio (PList history) w).2 flt ->
      (voice_chat audio (PList history) w).1
      = Ok (failure history (handled flt) (wall_clock w))).
Proof.
  destruct audio as [[sr data]|].
  2:{ split; [by eexists _, _, _|].
      intros [] Hr; cbn [raised] in Hr; unfold serialises in Hr; unpack;
        simplify_eq;
        match goal with Hx : _ = _ ++ [_] |- _ => by destruct (app_tail_ne _ _ Hx) end. }
  destruct (voice_chat_classified sr data history w) as ([[out h'] msg] & w' & -> & Hends).
  split; [by exists out, h', msg|]. cbn [fst snd].
  intros flt Hr.
  inversion Hends; subst; destruct flt; cbn [raised handled] in *;
    unfold serialises, failure in *; unpack; simplify_eq; frame; exchanged;
    try done; try congruence.
  all: try (by rewrite server_error_text_undecodable).
  all: unfold write_raises in *;
    repeat match goal with
    | Hw : write_file _ _ _ = _ |- _ => apply write_file_modes in Hw
    | Hr : read_file _ _ = (Ok _, _) |- _ => apply read_file_Ok in Hr
    | Hr : read_file _ _ = (Raise _, _) |- _ => apply read_file_raises in Hr
    end;
    cbn [after_exchange disk unreadable] in *;
    repeat match goal with
    | H : disk ?a = disk _ |- _ => rewrite H in *; clear H
    | H : unreadable ?a = unreadable _ |- _ => rewrite H in *; clear H
    end.
  all: destruct_or?;
    repeat match goal with
    | H : disk _ _ = _ |- _ => rewrite H in *; clear H
    end; unpack; simplify_eq; try done; try congruence.
  all: match goal with
       | Hu : unreadable _ _ = Some _,
         Hm : match unreadable _ _ with _ => _ end |- _ =>
         rewrite Hu in Hm; by subst
       end.
Qed.

(** ** Further properties of the orchestrator *)

Lemma input_not_output t t' : input_audio_path t <> output_audio_path t'.
Proof. intros E. apply path_join_inj in E. discriminate E. Qed.

Lemma read_file_lookup p w f w1 : read_file p w = (Ok f, w1) -> files w !! p = Some f.
Proof.
  unfold read_file. destruct (unreadable w p); [done|].
  destruct (files w !! p); intros E; by simplify_eq.
Qed.




(** X3: a call makes one attempt at most. The exchange log keeps what it
    held and gains nothing or one exchange; the request of that exchange
    is the fixed upload request (endpoint, field, file name of the call,
    type, timeout of 300 seconds), its payload is what the recording file
    holds, and that file is still there when the call returns. *)
Theorem single_attempt audio history w :
  exchanges (voice_chat audio (PList history) w).2 = exchanges w
  \/ exists f,
       exchanges (voice_chat audio (PList history) w).2
       = exchanges w ++ [(upload_request (epoch w) f,
                          server w (upload_request (epoch w) f))]
       /\ files (voice_chat audio (PList history) w).2 !! input_audio_path (epoch w) = Some f.
Proof.
  destruct audio as [[sr data]|]; [|by left].
  destruct (voice_chat_classified sr data history w) as (o & w' & -> & Hends).
  cbn [snd].
  inversion Hends; subst;
    repeat match goal with
    | H : read_file _ _ = (Ok _, _) |- _ => apply read_file_lookup in H
    end; frame;
    try (left; cbn [after_exchange exchanges]; congruence);
    right; exists f; cbn [after_exchange exchanges files].
  all: split;
    [cbn [after_exchange exchanges] in *; congruence|].
  all: rewrite ?save_chat_history_other by apply not_eq_sym, history_not_input.
  all: repeat match goal with
       | H : write_file (output_audio_path ?t) _ _ = (_, ?v) |- context [files ?v] =>
         rewrite (write_file_other _ _ _ _ _ _ (input_not_output _ t) H)
       end; done.
Qed.


(** X4: what is uploaded is the recording. When the samples serialise to
    [bytes] and the filesystem takes the write of the recording file, the
    request of the call, if it sends one, is the upload request of those
    bytes. *)
Theorem uploads_recording sr data history w bytes q a :
  wavfile_encode sr data = inr bytes ->
  disk w (input_audio_path (epoch w)) = Sound ->
  exchanges (voice_chat (Some (sr, data)) (PList history) w).2 = exchanges w ++ [(q, a)] ->
  q = upload_request (epoch w) bytes.
Proof.
  destruct (voice_chat_classified sr data history w) as (o & w' & -> & Hends).
  cbn [snd]. intros Henc Hdisk Hx.
  assert (forall b w1 f, wavfile_encode sr data = inr b ->
            write_file (input_audio_path (epoch w)) b w = (Ok tt, w1) ->
            read_file (input_audio_path (epoch w)) w1 = (Ok f, w1) -> f = bytes) as Hsame.
  { intros b w1 f Hb Hw Hr. apply read_file_lookup in Hr.
    destruct (write_file_sound _ _ _ _ _ Hdisk Hw) as [_ Hf]. congruence. }
  inversion Hends; subst;
    try match goal with
        | Hw : write_file (input_audio_path _) _ _ = (Ok _, _),
          Hr : read_file _ _ = (Ok _, _) |- _ =>
          pose proof (Hsame _ _ _ ltac:(eassumption) Hw Hr); subst
        end;
    frame; exchanged; try done.
Qed.

(** X5: a recording that does not serialise ends the call in the
    Unexpected error with the text of the library, and no request is
    sent. *)
Theorem unserialisable_recording sr data history w err :
  wavfile_encode sr data = inl err ->
  (voice_chat (Some (sr, data)) (PList history) w).1
  = Ok (failure history ("⚠️ Terjadi kesalahan: " +:+ err) (wall_clock w))
  /\ exchanges (voice_chat (Some (sr, data)) (PList history) w).2 = exchanges w.
Proof.
  intros Henc.
  destruct (voice_chat_classified sr data history w) as (o & w' & -> & Hends).
  cbn [fst snd]. inversion Hends; subst; try congruence.
  split; [|done]. congruence.
Qed.

(** X6: a call touches three paths at most, the recording file, the reply
    file and the history file; every other path holds after the call what
    it held before. *)
Theorem touches_three_paths audio history w p :
  p <> input_audio_path (epoch w) ->
  p <> output_audio_path (epoch w + latency w) ->
  p <> HISTORY_PATH ->
  files (voice_chat audio (PList history) w).2 !! p = files w !! p.
Proof.
  intros Hin Hout Hhist.
  destruct audio as [[sr data]|]; [|done].
  destruct (voice_chat_classified sr data history w) as (o & w' & -> & Hends).
  cbn [snd].
  inversion Hends; subst; try done;
    rewrite ?save_chat_history_other by done;
    cbn [after_exchange files];
    repeat match goal with
    | H : write_file ?p' _ _ = (_, ?v) |- context [files ?v] =>
      rewrite (write_file_other p' p _ _ _ _ ltac:(done) H);
      cbn [after_exchange files]
    end; done.
Qed.

(** The three shapes of a result. *)
Lemma voice_chat_shapes audio history w out h' msg :
  (voice_chat audio (PList history) w).1 = Ok (out, PList h', msg) ->
  (out = None /\ h' = history
   /\ (audio = None \/ msg = "⚠️ Gagal menyimpan file audio"))
  \/ (out = None /\ audio <> None
      /\ h' = history ++ [error_turn msg (wall_clock w)])
  \/ (is_Some out /\ h' = history ++ [success_turn (wall_clock w)]).
Proof.
  destruct audio as [[sr data]|].
  2:{ intros [= <- <- <-]. left. eauto. }
  destruct (voice_chat_classified sr data history w) as (o & w' & -> & Hends).
  cbn [fst]. intros [= ->].
  inversion Hends; subst; unfold failure in *; simplify_eq;
    first [ by left; eauto
          | by right; left
          | by right; right; split; [eexists|] ].
Qed.

(** X7: the history is append-only. The history a call returns is the
    history it was given, or that history followed by one turn whose
    timestamp is the wall clock read when the call started; no turn is
    dropped, reordered or rewritten. *)
Theorem history_append_only audio history w out h' msg :
  (voice_chat audio (PList history) w).1 = Ok (out, PList h', msg) ->
  h' = history
  \/ exists label reply,
       h' = history ++ [PList [PStr label; reply; PStr (wall_clock w)]].
Proof.
  intros Hrun.
  destruct (voice_chat_shapes _ _ _ _ _ _ Hrun)
    as [(_ & -> & _)|[(_ & _ & ->)|(_ & ->)]]; [by left|right; by eexists _, _ ..].
Qed.

(** X8: the status message is the success text exactly when an output
    path is returned. *)
Theorem success_status audio history w out h' msg :
  (voice_chat audio (PList history) w).1 = Ok (out, PList h', msg) ->
  is_Some out <-> msg = "✅ Berhasil mendapatkan respons".
Proof.
  destruct audio as [[sr data]|].
  2:{ intros [= <- <- <-]. split; [by intros []|done]. }
  destruct (voice_chat_classified sr data history w) as (o & w' & -> & Hends).
  cbn [fst]. intros [= ->].
  inversion Hends; subst; unfold failure in *; simplify_eq;
    (split; [try by intros []|]); try done.
  all: unfold transport_error_text; by destruct (is_Timeout e), (is_ConnectionError e).
Qed.

(** X9: the reply file is written only for a reply of status 200 with a
    body: if the reply path holds something else after the call than
    before, the transport returned such a reply. *)
Theorem reply_file_needs_body audio history w :
  files (voice_chat audio (PList history) w).2 !! output_audio_path (epoch w + latency w)
  <> files w !! output_audio_path (epoch w + latency w) ->
  exists q r,
    exchanges (voice_chat audio (PList history) w).2 = exchanges w ++ [(q, Responds r)]
    /\ status_code r = 200 /\ content r <> "".
Proof.
  destruct audio as [[sr data]|]; [|done].
  destruct (voice_chat_classified sr data history w) as (o & w' & -> & Hends).
  cbn [snd]. intros Hchanged.
  inversion Hends; subst;
    try (exfalso; apply Hchanged; cbn [after_exchange files];
         repeat match goal with
         | H : write_file (input_audio_path ?t) _ _ = (_, ?v) |- context [files ?v] =>
           rewrite (write_file_other _ _ _ _ _ _
                      (not_eq_sym (input_not_output t _)) H)
         end; done);
    frame; exists (upload_request (epoch w) f), r; (split; [|done]);
    cbn [after_exchange exchanges] in *; congruence.
Qed.

(** X24: a history that is not a list is not a history the call can
    append to. On a recording the call then returns normally only in
    SaveFailure, with the value it was given; on every other path it
    raises, out of the outer handler, what the concatenation raises. *)
Theorem non_list_history_raises sr data history w e :
  concat_raises history e ->
  (voice_chat (Some (sr, data)) history w).1
  = Ok (None, history, "⚠️ Gagal menyimpan file audio")
  \/ (voice_chat (Some (sr, data)) history w).1 = Raise e.
Proof.
  intros Hadd.
  cbv [voice_chat mbind mret M_bind M_ret try_except raise strftime_now
       time_time path_exists wavfile_write requests_post response_json
       py_get getsize].
  repeat (rewrite ?Hadd; case_match; simplify_eq/=; rewrite ?Hadd in * ); eauto.
Qed.

(** X25: on a list the call returns a list: whatever the outcome, the
    history returned is a list when the history given is one. *)
Theorem list_history_stays_list audio history w out v msg :
  (voice_chat audio (PList history) w).1 = Ok (out, v, msg) ->
  exists h', v = PList h'.
Proof.
  destruct audio as [[sr data]|].
  2:{ intros [= <- <- <-]. by eexists. }
  destruct (voice_chat_classified sr data history w) as (o & w' & -> & Hends).
  cbn [fst]. intros [= ->].
  inversion Hends; subst; unfold failure in *; simplify_eq; by eexists.
Qed.

(** ** Further properties of the history store *)

Lemma load_chat_history_ext w1 w2 :
  files w1 !! HISTORY_PATH = files w2 !! HISTORY_PATH ->
  unreadable w1 HISTORY_PATH = unreadable w2 HISTORY_PATH ->
  (load_chat_history w1).1 = (load_chat_history w2).1.
Proof.
  intros Hf Hu. destruct (files w2 !! HISTORY_PATH) as [text|] eqn:E.
  - by rewrite (load_chat_history_present _ _ Hf), (load_chat_history_present _ _ E), Hu.
  - by rewrite (load_chat_history_missing _ Hf), (load_chat_history_missing _ E).
Qed.

(** What a call leaves as it was, besides files. *)
Lemma voice_chat_frame audio history w :
  disk (voice_chat audio (PList history) w).2 = disk w
  /\ unreadable (voice_chat audio (PList history) w).2 = unreadable w.
Proof.
  destruct audio as [[sr data]|]; [|done].
  destruct (voice_chat_classified sr data history w) as (o & w' & -> & Hends).
  cbn [snd].
  inversion Hends; subst; frame;
    cbn [after_exchange disk unreadable] in *; split; congruence.
Qed.

Lemma voice_chat_error_keeps_history_file audio history w h' msg :
  (voice_chat audio (PList history) w).1 = Ok (None, PList h', msg) ->
  files (voice_chat audio (PList history) w).2 !! HISTORY_PATH = files w !! HISTORY_PATH.
Proof.
  destruct audio as [[sr data]|]; [|done].
  destruct (voice_chat_classified sr data history w) as (o & w' & -> & Hends).
  cbn [fst snd]. intros [= ->].
  inversion Hends; subst; unfold failure in *; simplify_eq;
    cbn [after_exchange files];
    repeat match goal with
    | H : write_file (input_audio_path ?t) _ _ = (_, ?v) |- context [files ?v] =>
      rewrite (write_file_other _ _ _ _ _ _ (history_not_input t) H)
    | H : write_file (output_audio_path ?t) _ _ = (_, ?v) |- context [files ?v] =>
      rewrite (write_file_other _ _ _ _ _ _ (history_not_output t) H);
      cbn [after_exchange files]
    end; done.
Qed.

Lemma voice_chat_success_saves audio history w p h' msg :
  (voice_chat audio (PList history) w).1 = Ok (Some p, PList h', msg) ->
  disk w HISTORY_PATH = Sound ->
  files (voice_chat audio (PList history) w).2 !! HISTORY_PATH
  = Some (json_dumps (PList h')).
Proof.
  destruct audio as [[sr data]|]; [|done].
  destruct (voice_chat_classified sr data history w) as (o & w' & -> & Hends).
  cbn [fst snd]. intros [= ->] Hdisk.
  inversion Hends; subst; unfold failure in *; simplify_eq; frame.
  apply save_chat_history_sound. cbn [after_exchange disk] in *. congruence.
Qed.

(** X10: [save_chat_history] never raises, whatever the filesystem does
    with the write, and no file but the history file is touched. *)
Theorem save_chat_history_contained history w :
  exists w',
    save_chat_history history w = (Ok tt, w')
    /\ forall p, p <> HISTORY_PATH -> files w' !! p = files w !! p.
Proof.
  exists (save_chat_history history w).2. split.
  - apply save_chat_history_returns.
  - intros p Hp. by apply save_chat_history_other.
Qed.

(** X11: a save replaces the whole file. After two saves on a filesystem
    that takes the writes, a load returns the history of the second save,
    provided its JSON text parses back to it; nothing of the first save
    is left. *)
Theorem save_overwrites first second w :
  disk w HISTORY_PATH = Sound ->
  unreadable w HISTORY_PATH = None ->
  json_loads (json_dumps (PList second)) = Some (PList second) ->
  (load_chat_history
     (save_chat_history (PList second) (save_chat_history (PList first) w).2).2).1
  = Ok (PList second).
Proof.
  intros Hdisk Hread Hjson.
  destruct (save_chat_history_frame (PList first) w) as (Hd1 & Hu1 & _).
  destruct (save_chat_history_frame (PList second) (save_chat_history (PList first) w).2)
    as (_ & Hu2 & _).
  assert (disk (save_chat_history (PList first) w).2 HISTORY_PATH = Sound) as Hdisk1
    by congruence.
  pose proof (save_chat_history_sound (PList second) _ Hdisk1) as Hfile.
  rewrite (load_chat_history_present _ _ Hfile), Hu2, Hu1, Hread, Hjson. done.
Qed.

(** X12: [load_chat_history] does not look at the shape of what it reads.
    When the history file can be opened and its text parses, the value
    parsed is returned as it is, list or not; when the file is there but
    cannot be opened, the empty list is returned. *)
Theorem load_chat_history_reads w text :
  files w !! HISTORY_PATH = Some text ->
  (forall v, unreadable w HISTORY_PATH = None -> json_loads text = Some v ->
             load_chat_history w = (Ok v, w))
  /\ (is_Some (unreadable w HISTORY_PATH) ->
      load_chat_history w = (Ok (PList []), w)).
Proof.
  intros Hfile. rewrite (load_chat_history_present _ _ Hfile). split.
  - by intros v -> ->.
  - by intros [m ->].
Qed.

(** X13: [clear_history] is idempotent and touches no other file. When
    there is no history file, or [os.remove] does not raise on it, a
    second clear returns the same and changes nothing; when [os.remove]
    raises on the history file, the clear changes nothing and a second
    clear raises the same; and every path but the history path holds what
    it held. *)
Theorem clear_history_idempotent w :
  let w1 := (clear_history w).2 in
  (files w !! HISTORY_PATH = None \/ undeletable w HISTORY_PATH = None ->
   clear_history w1 = (Ok ([], "🗑️ Riwayat percakapan telah dihapus"), w1))
  /\ (forall m,
      is_Some (files w !! HISTORY_PATH) -> undeletable w HISTORY_PATH = Some m ->
      w1 = w /\ clear_history w1 = (Raise (OtherError m), w1))
  /\ forall p, p <> HISTORY_PATH -> files w1 !! p = files w !! p.
Proof.
  cbn zeta. rewrite (clear_history_run w).
  destruct (files w !! HISTORY_PATH) as [text|] eqn:E;
    [destruct (undeletable w HISTORY_PATH) as [m|] eqn:Hu|];
    cbn [snd]; rewrite clear_history_run; cbn [set_files files undeletable].
  - rewrite E, Hu. split; [by intros [?|?]|]. split; [|done].
    by intros m' _ [= ->].
  - rewrite lookup_delete_eq. split; [done|]. split; [done|].
    intros p Hp. by rewrite lookup_delete_ne.
  - rewrite E. split; [done|]. split; [|done]. by intros m [? ?].
Qed.

(** X14: a successful turn survives a restart. After a call that returns
    an output path, on a filesystem that takes the write of the history
    file and lets it be read, a fresh load returns the history the call
    returned, provided its JSON text parses back to it. *)
Theorem success_survives_restart audio history w p h' msg :
  (voice_chat audio (PList history) w).1 = Ok (Some p, PList h', msg) ->
  disk w HISTORY_PATH = Sound ->
  unreadable w HISTORY_PATH = None ->
  json_loads (json_dumps (PList h')) = Some (PList h') ->
  (load_chat_history (voice_chat audio (PList history) w).2).1 = Ok (PList h').
Proof.
  intros Hrun Hdisk Hread Hjson.
  pose proof (voice_chat_success_saves _ _ _ _ _ _ Hrun Hdisk) as Hfile.
  destruct (voice_chat_frame audio history w) as [_ Hu].
  rewrite (load_chat_history_present _ _ Hfile), Hu, Hread, Hjson. done.
Qed.

(** X15: an error turn does not survive a restart. After a call that
    returns no output path, a fresh load returns what a load before the
    call returned: the error turn of the returned history is nowhere on
    disk. *)
Theorem error_lost_on_restart audio history w h' msg :
  (voice_chat audio (PList history) w).1 = Ok (None, PList h', msg) ->
  (load_chat_history (voice_chat audio (PList history) w).2).1 = (load_chat_history w).1.
Proof.
  intros Hrun. apply load_chat_history_ext.
  - by eapply voice_chat_error_keeps_history_file.
  - destruct (voice_chat_frame audio history w) as [_ Hu]. by rewrite Hu.
Qed.

(** ** Properties of the rendering *)

Lemma string_app_assoc (a b c : string) : (a +:+ b) +:+ c = a +:+ b +:+ c.
Proof.
  induction a as [|x a IH]; [done|].
  change (String x ((a +:+ b) +:+ c) = String x (a +:+ b +:+ c)). by rewrite IH.
Qed.

Lemma string_app_nil_r (a : string) : a +:+ "" = a.
Proof.
  induction a as [|x a IH]; [done|].
  change (String x (a +:+ "") = String x a). by rewrite IH.
Qed.

Lemma format_entries_turn html turn rest :
  format_entries html (as_entry turn :: rest)
  = format_entries (html +:+ entry_markup turn) rest.
Proof.
  destruct turn as [[u a] t]. cbn [format_entries as_entry unpack_entry fst snd].
  unfold entry_markup. cbn [fst snd].
  destruct (truthy a); by rewrite ?string_app_assoc, ?string_app_nil_r.
Qed.

Lemma format_entries_turns html turns rest :
  format_entries html ((as_entry <$> turns) ++ rest)
  = format_entries (html +:+ transcript turns) rest.
Proof.
  revert html. induction turns as [|turn turns IH]; intros html.
  - by rewrite string_app_nil_r.
  - cbn [fmap list_fmap app transcript].
    change (list_fmap _ _ as_entry turns) with (as_entry <$> turns).
    rewrite format_entries_turn, IH. by rewrite string_app_assoc.
Qed.

Lemma transcript_app turns turns' :
  transcript (turns ++ turns') = transcript turns +:+ transcript turns'.
Proof.
  induction turns as [|turn turns IH]; [done|].
  cbn [app transcript]. by rewrite IH, string_app_assoc.
Qed.

Lemma render_turns turns :
  turns <> [] ->
  format_chat_history (PList (as_entry <$> turns))
  = Some (Ok ("<div class='chat-container'>" +:+ transcript turns +:+ "</div>")).
Proof.
  intros Hne. unfold format_chat_history.
  assert (truthy (PList (as_entry <$> turns)) = true) as -> by (by destruct turns).
  cbn [negb].
  rewrite <- (app_nil_r (as_entry <$> turns)), format_entries_turns.
  cbn [format_entries]. by rewrite string_app_assoc.
Qed.

(** X16: on a history of well-formed entries the loop with its growing
    string computes the bubbles of the entries in order, between the
    opening and the closing tag of the container; it does not raise. *)
Theorem format_chat_history_transcript turns :
  turns <> [] ->
  format_chat_history (PList (as_entry <$> turns))
  = Some (Ok ("<div class='chat-container'>" +:+ transcript turns +:+ "</div>")).
Proof.
  intros Hne. unfold format_chat_history.
  replace (truthy (PList (as_entry <$> turns))) with true by (by destruct turns).
  cbn [negb].
  replace (as_entry <$> turns) with ((as_entry <$> turns) ++ [])
    by apply app_nil_r.
  rewrite format_entries_turns. cbn [format_entries].
  by rewrite string_app_assoc.
Qed.

(** X17: one entry that is a list of another length than three loses the
    whole rendering: the call raises, whatever well-formed entries come
    before it and whatever comes after. *)
Theorem format_chat_history_malformed turns l rest :
  length l <> 3%nat ->
  exists e,
    format_chat_history (PList ((as_entry <$> turns) ++ PList l :: rest))
    = Some (Raise e).
Proof.
  intros Hlen. unfold format_chat_history.
  assert (truthy (PList ((as_entry <$> turns) ++ PList l :: rest)) = true) as ->
    by (by destruct turns).
  cbn [negb]. rewrite format_entries_turns. cbn [format_entries].
  destruct l as [|a [|b [|c [|d l]]]]; cbn [unpack_entry]; try done;
    try case_bool_decide; by eauto.
Qed.

(** ** Properties of the event chains *)

Lemma submit_btn_click_run audio history w :
  submit_btn_click audio history w
  = match voice_chat audio history w with
    | (Ok o, w') => (Ok (o, format_chat_history o.1.2), w')
    | (Raise e, w') => (Raise e, w')
    end.
Proof.
  unfold submit_btn_click, mbind, M_bind, mret, M_ret.
  by destruct (voice_chat audio history w) as [[[[? ?] ?]|?] ?].
Qed.

Lemma submit_btn_click_outcome audio history w o :
  (voice_chat audio history w).1 = Ok o ->
  (submit_btn_click audio history w).1
  = Ok (o, format_chat_history o.1.2).
Proof.
  rewrite submit_btn_click_run.
  destruct (voice_chat audio history w) as [[?|?] ?]; cbn [fst]; by intros [= ->].
Qed.

(** X18: the call keeps the history well-formed: when every entry of the
    history given is a list of three values, so is every entry of the
    history returned. *)
Theorem well_formed_history_kept audio turns w out h' msg :
  (voice_chat audio (PList (as_entry <$> turns)) w).1 = Ok (out, PList h', msg) ->
  exists turns', h' = as_entry <$> turns'.
Proof.
  intros Hrun.
  destruct (voice_chat_shapes _ _ _ _ _ _ Hrun)
    as [(_ & -> & _)|[(_ & _ & ->)|(_ & ->)]].
  - by exists turns.
  - exists (turns ++ [(PStr msg, PNone, PStr (wall_clock w))]). by rewrite fmap_app.
  - exists (turns ++ [(PStr "🎤 Pesan Suara", PStr "🔊 Balasan Suara",
                       PStr (wall_clock w))]).
    by rewrite fmap_app.
Qed.

(** X19: after a submit that fails with an error turn, the transcript
    shown is the earlier turns followed by one user bubble that carries
    the error text as it is and the time of the call; there is no
    assistant bubble for it. *)
Theorem submit_shows_error audio turns w h' msg :
  (voice_chat audio (PList (as_entry <$> turns)) w).1 = Ok (None, PList h', msg) ->
  audio <> None ->
  msg <> "⚠️ Gagal menyimpan file audio" ->
  (submit_btn_click audio (PList (as_entry <$> turns)) w).1
  = Ok ((None, PList h', msg),
        Some (Ok ("<div class='chat-container'>" +:+ transcript turns
                  +:+ user_bubble msg (wall_clock w) +:+ "</div>"))).
Proof.
  intros Hrun Haudio Hmsg. rewrite (submit_btn_click_outcome _ _ _ _ Hrun).
  cbn [fst snd].
  destruct (voice_chat_shapes _ _ _ _ _ _ Hrun)
    as [(_ & _ & [?|?])|[(_ & _ & ->)|([? ?] & _)]]; try done.
  change (error_turn msg (wall_clock w))
    with (as_entry (PStr msg, PNone, PStr (wall_clock w))).
  change [as_entry (PStr msg, PNone, PStr (wall_clock w))]
    with (as_entry <$> [(PStr msg, PNone, PStr (wall_clock w))]).
  rewrite <- fmap_app, render_turns by (by destruct turns).
  rewrite transcript_app. cbn [transcript]. unfold entry_markup.
  cbn [fst snd truthy py_str].
  by rewrite !string_app_nil_r, !string_app_assoc.
Qed.

(** X20: after a submit that succeeds, the transcript shown is the earlier
    turns followed by the user bubble and the assistant bubble of the new
    turn, both with the time of the call. *)
Theorem submit_shows_reply audio turns w p h' msg :
  (voice_chat audio (PList (as_entry <$> turns)) w).1 = Ok (Some p, PList h', msg) ->
  (submit_btn_click audio (PList (as_entry <$> turns)) w).1
  = Ok ((Some p, PList h', msg),
        Some (Ok ("<div class='chat-container'>" +:+ transcript turns
                  +:+ user_bubble "🎤 Pesan Suara" (wall_clock w)
                  +:+ assistant_bubble "🔊 Balasan Suara" (wall_clock w)
                  +:+ "</div>"))).
Proof.
  intros Hrun. rewrite (submit_btn_click_outcome _ _ _ _ Hrun).
  cbn [fst snd].
  destruct (voice_chat_shapes _ _ _ _ _ _ Hrun)
    as [(? & _)|[(? & _)|(_ & ->)]]; try done.
  change (success_turn (wall_clock w))
    with (as_entry (PStr "🎤 Pesan Suara", PStr "🔊 Balasan Suara",
                    PStr (wall_clock w))).
  change [as_entry ?t] with (as_entry <$> [t]).
  rewrite <- fmap_app, render_turns by (by destruct turns).
  rewrite transcript_app. cbn [transcript]. unfold entry_markup.
  cbn [fst snd truthy py_str].
  by rewrite !string_app_nil_r, !string_app_assoc.
Qed.

(** X21: when there is no history file, or [os.remove] does not raise on
    it, the clear chain empties the history, leaves no history file, and
    shows the placeholder of an empty history; when [os.remove] raises on
    the history file, the chain raises and nothing is emptied. *)
Theorem clear_shows_placeholder w :
  (files w !! HISTORY_PATH = None \/ undeletable w HISTORY_PATH = None ->
   exists w',
     clear_btn_click w
     = (Ok ([], "🗑️ Riwayat percakapan telah dihapus",
            Some (Ok empty_history_markup)), w')
     /\ files w' !! HISTORY_PATH = None)
  /\ (forall m,
      is_Some (files w !! HISTORY_PATH) -> undeletable w HISTORY_PATH = Some m ->
      clear_btn_click w = (Raise (OtherError m), w)).
Proof.
  unfold clear_btn_click, clear_history, mbind, M_bind, path_exists, os_remove,
    mret, M_ret.
  destruct (files w !! HISTORY_PATH) as [text|] eqn:E; rewrite ?E; split.
  - intros [? | ->]; [done|]. eexists. split; [reflexivity|].
    cbn [set_files files]. apply lookup_delete_eq.
  - by intros m _ ->.
  - intros _. by eexists.
  - by intros m [? ?].
Qed.

Lemma demo_load_outcome w v :
  load_chat_history w = (Ok v, w) ->
  demo_load w = (Ok (v, format_chat_history v), w).
Proof. intros E. unfold demo_load, mbind, M_bind, mret, M_ret. by rewrite E. Qed.

(** X22: a fresh process shows what is saved. When the history file can
    be read and parses to a non-empty list of well-formed entries, the
    state starts as that list and the transcript shown is the bubbles of
    its entries. *)
Theorem demo_load_shows_saved w text turns :
  files w !! HISTORY_PATH = Some text ->
  unreadable w HISTORY_PATH = None ->
  json_loads text = Some (PList (as_entry <$> turns)) ->
  turns <> [] ->
  demo_load w
  = (Ok (PList (as_entry <$> turns),
         Some (Ok ("<div class='chat-container'>" +:+ transcript turns +:+ "</div>"))),
     w).
Proof.
  intros Hfile Hread Hjson Hne.
  rewrite (demo_load_outcome w (PList (as_entry <$> turns))).
  - by rewrite render_turns.
  - by rewrite (load_chat_history_present _ _ Hfile), Hread, Hjson.
Qed.

(** X23: the load does not validate and the rendering pays for it: when
    the history file parses to a number other than zero, the state starts
    as that number and the rendering at start raises. *)
Theorem demo_load_unvalidated w text n :
  files w !! HISTORY_PATH = Some text ->
  unreadable w HISTORY_PATH = None ->
  json_loads text = Some (PInt n) ->
  n <> 0 ->
  exists e, demo_load w = (Ok (PInt n, Some (Raise e)), w).
Proof.
  intros Hfile Hread Hjson Hn.
  rewrite (demo_load_outcome w (PInt n)).
  - unfold format_chat_history. cbn [truthy].
    destruct (Z.eqb_spec n 0) as [|_]; [done|]. by eexists.
  - by rewrite (load_chat_history_present _ _ Hfile), Hread, Hjson.
Qed.
End Properties.

(** ** Concrete runs

    The theorems at the test double of [Mock]: one run for each theorem
    that has a premise, and the runs on which the statements of the
    specification that the code does not meet fail. *)

#[local] Existing Instance Mock.platform.

(** C1 fails on SaveFailure: the recording is gone after the write, the
    call returns the history it was given, here the empty one, and not
    that history with an error turn appended. *)
Lemma save_failure_keeps_history :
  (voice_chat Mock.clip (PList []) Mock.losing_upload).1
  = Ok (None, PList [], "⚠️ Gagal menyimpan file audio")
  /\ PList [] <> PList ([] ++ [error_turn "⚠️ Gagal menyimpan file audio"
                                          (wall_clock Mock.losing_upload)]).
Proof. split; [vm_compute; reflexivity | discriminate]. Qed.

(** [voice_chat_error_turn] on a timeout. *)
Lemma voice_chat_error_turn_witness :
  (voice_chat Mock.clip (PList []) Mock.timing_out).1
  = Ok (None,
        PList [error_turn (transport_error_text (Timeout "Read timed out.")) "12:00:01"],
        transport_error_text (Timeout "Read timed out."))
  /\ Mock.clip <> None
  /\ [error_turn (transport_error_text (Timeout "Read timed out.")) "12:00:01"]
     = [] ++ [error_turn (transport_error_text (Timeout "Read timed out."))
                         (wall_clock Mock.timing_out)].
Proof.
  assert ((voice_chat Mock.clip (PList []) Mock.timing_out).1
          = Ok (None,
                PList [error_turn (transport_error_text (Timeout "Read timed out.")) "12:00:01"],
                transport_error_text (Timeout "Read timed out."))) as Hrun
    by (vm_compute; reflexivity).
  assert (Mock.clip <> None) as Hclip by discriminate.
  split; [exact Hrun|]. split; [exact Hclip|].
  apply (proj1 (voice_chat_error_turn Mock.clip [] Mock.timing_out _ _ Hrun Hclip)).
  discriminate.
Defined.

(** C2 fails on an error turn: after a timeout the returned history has
    the error turn appended, and no history file has been written. *)
Lemma error_turn_not_saved :
  (voice_chat Mock.clip (PList []) Mock.timing_out).1
  = Ok (None,
        PList ([] ++ [error_turn (transport_error_text (Timeout "Read timed out.")) "12:00:01"]),
        transport_error_text (Timeout "Read timed out."))
  /\ files (voice_chat Mock.clip (PList []) Mock.timing_out).2 !! HISTORY_PATH = None.
Proof. split; vm_compute; reflexivity. Qed.

(** [voice_chat_persists] on a successful call. *)
Lemma voice_chat_persists_witness :
  (voice_chat Mock.clip (PList []) (Mock.replying Mock.audio_reply)).1
  = Ok (Some "/tmp/tts_output_1700000002.wav", PList [success_turn "12:00:01"],
        "✅ Berhasil mendapatkan respons")
  /\ disk (Mock.replying Mock.audio_reply) HISTORY_PATH = Sound
  /\ files (voice_chat Mock.clip (PList []) (Mock.replying Mock.audio_reply)).2 !! HISTORY_PATH
     = Some (json_dumps (PList [success_turn "12:00:01"])).
Proof.
  assert ((voice_chat Mock.clip (PList []) (Mock.replying Mock.audio_reply)).1
          = Ok (Some "/tmp/tts_output_1700000002.wav", PList [success_turn "12:00:01"],
                "✅ Berhasil mendapatkan respons")) as Hrun
    by (vm_compute; reflexivity).
  assert (disk (Mock.replying Mock.audio_reply) HISTORY_PATH = Sound) as Hdisk
    by reflexivity.
  split; [exact Hrun|]. split; [exact Hdisk|].
  apply (proj1 (voice_chat_persists _ _ _ _ _ _ Hrun)); [by eexists|exact Hdisk].
Defined.

(** C3 fails when the write fails and when the file cannot be read back.
    On a history file that cannot be opened for writing
    [save_chat_history] swallows the error, no file is left, and the load
    returns the empty list, which has no last element. On a history file
    that takes the write and cannot be opened for reading the load
    swallows the error and returns the empty list as well. *)
Lemma failed_save_is_not_loaded :
  ((load_chat_history
      (save_chat_history (PList ([] ++ [success_turn "12:00:01"]))
         Mock.blocking_history).2).1
   = Ok (PList [])
   /\ (load_chat_history
         (save_chat_history (PList ([] ++ [success_turn "12:00:01"]))
            Stage.locked_history).2).1
      = Ok (PList []))
  /\ last ([] : list PyVal) <> Some (success_turn "12:00:01").
Proof. split; [split; vm_compute; reflexivity | discriminate]. Qed.

(** [save_then_load] on a history of one error turn and a success turn. *)
Lemma save_then_load_witness :
  disk Mock.timing_out HISTORY_PATH = Sound
  /\ unreadable Mock.timing_out HISTORY_PATH = None
  /\ exists l,
       (load_chat_history
          (save_chat_history
             (PList ((turn_value <$> [("a", None, "12:00:00")])
                     ++ [turn_value ("🎤 Pesan Suara", Some "🔊 Balasan Suara", "12:00:01")]))
             Mock.timing_out).2).1 = Ok (PList l)
       /\ last l = Some (turn_value ("🎤 Pesan Suara", Some "🔊 Balasan Suara", "12:00:01")).
Proof.
  split; [reflexivity|]. split; [reflexivity|].
  exact (save_then_load [("a", None, "12:00:00")]
           ("🎤 Pesan Suara", Some "🔊 Balasan Suara", "12:00:01")
           Mock.timing_out eq_refl eq_refl).
Defined.





(** [load_chat_history_degrades] on a history file that is not JSON. *)
Lemma load_chat_history_degrades_witness :
  (exists text, files Mock.corrupt_history !! HISTORY_PATH = Some text
                /\ json_loads text = None)
  /\ load_chat_history Mock.corrupt_history = (Ok (PList []), Mock.corrupt_history).
Proof.
  assert (exists text, files Mock.corrupt_history !! HISTORY_PATH = Some text
                       /\ json_loads text = None) as Hcorrupt
    by (exists "[["; split; vm_compute; reflexivity).
  split; [exact Hcorrupt|].
  exact (proj2 (load_chat_history_degrades Mock.corrupt_history) (or_intror Hcorrupt)).
Defined.

(** C9 fails when [os.remove] raises: the history file is somebody
    else's, [clear_history] raises, the file is still there, and a load
    after it returns the turn that the file holds. *)
Lemma clear_leaves_file :
  clear_history Stage.pinned_history
  = (Raise (OtherError "Operation not permitted"), Stage.pinned_history)
  /\ is_Some (files Stage.pinned_history !! HISTORY_PATH)
  /\ (load_chat_history Stage.pinned_history).1
     = Ok (PList (as_entry <$> Stage.earlier)).
Proof. split; [|split]; [vm_compute; reflexivity | by eexists | vm_compute; reflexivity]. Qed.

(** [clear_then_load] on a history file that can be removed, and on one
    that cannot. *)
Lemma clear_then_load_witness :
  undeletable Mock.corrupt_history HISTORY_PATH = None
  /\ (exists w',
        clear_history Mock.corrupt_history
        = (Ok ([], "🗑️ Riwayat percakapan telah dihapus"), w')
        /\ files w' !! HISTORY_PATH = None
        /\ load_chat_history w' = (Ok (PList []), w'))
  /\ clear_history Stage.pinned_history
     = (Raise (OtherError "Operation not permitted"), Stage.pinned_history).
Proof.
  split; [reflexivity|]. split.
  - exact (proj1 (clear_then_load Mock.corrupt_history) (or_intror eq_refl)).
  - assert (is_Some (files Stage.pinned_history !! HISTORY_PATH)) as Hfile
      by (by eexists).
    exact (proj2 (clear_then_load Stage.pinned_history) _ Hfile eq_refl).
Defined.

(** C10 fails on a history that is not a list. The history file holds
    the JSON object [{}], [load_chat_history] hands it over as it is, and
    on a server that answers with audio the call then raises: the
    concatenation of line 134 raises [TypeError], and the handler of
    lines 150-153 raises it again. *)
Lemma history_not_a_list :
  (load_chat_history (Stage.saved (PDict ∅))).1 = Ok (PDict ∅)
  /\ (voice_chat Mock.clip (PDict ∅) (Stage.saved (PDict ∅))).1
     = Raise (OtherError "unsupported operand type(s) for +: 'dict' and 'list'").
Proof. split; vm_compute; reflexivity. Qed.

(** [voice_chat_total] on each operation that can raise: a recording that
    does not serialise, a recording file that cannot be written, a
    recording file that cannot be opened for upload, a transport that
    times out, a reply file that cannot be written, and an error body that
    is not JSON. *)
Lemma voice_chat_total_witness :
  (voice_chat Stage.bad_clip (PList []) Mock.timing_out).1
  = Ok (failure [] "⚠️ Terjadi kesalahan: sample rate must be positive" "12:00:01")
  /\ (voice_chat Mock.clip (PList []) Stage.blocking_recording).1
     = Ok (failure [] "⚠️ Terjadi kesalahan: Permission denied" "12:00:01")
  /\ (voice_chat Mock.clip (PList []) Stage.locked_recording).1
     = Ok (failure [] "🔴 Error: Permission denied" "12:00:01")
  /\ (voice_chat Mock.clip (PList []) Mock.timing_out).1
     = Ok (failure [] (transport_error_text (Timeout "Read timed out.")) "12:00:01")
  /\ (voice_chat Mock.clip (PList []) Mock.blocking_reply).1
     = Ok (failure [] "⚠️ Gagal menyimpan file audio respons: Permission denied"
             "12:00:01")
  /\ (voice_chat Mock.clip (PList []) (Mock.replying Stage.garbled_reply)).1
     = Ok (failure [] "⚠️ Server Error: Kode status: 502" "12:00:01").
Proof.
  assert (serialises Mock.clip) as Hclip
    by (exists 16000, [0; 1; 2], (Mock.riff [0; 1; 2]); split; reflexivity).
  assert (raised Stage.bad_clip Mock.timing_out
            (voice_chat Stage.bad_clip (PList []) Mock.timing_out).2
            (SerialiseRaises "sample rate must be positive")) as Hserialise
    by (exists 0, [0; 1; 2]; split; reflexivity).
  assert (raised Mock.clip Stage.blocking_recording
            (voice_chat Mock.clip (PList []) Stage.blocking_recording).2
            (RecordingWriteRaises "Permission denied")) as Hrecording
    by (split; [exact Hclip | left; reflexivity]).
  assert (raised Mock.clip Stage.locked_recording
            (voice_chat Mock.clip (PList []) Stage.locked_recording).2
            (UploadOpenRaises "Permission denied")) as Hupload
    by (split; [exact Hclip | split; [left; reflexivity | reflexivity]]).
  assert (raised Mock.clip Mock.timing_out
            (voice_chat Mock.clip (PList []) Mock.timing_out).2
            (TransportRaises (Timeout "Read timed out."))) as Htransport
    by (exists Mock.clip_request; vm_compute; reflexivity).
  assert (raised Mock.clip Mock.blocking_reply
            (voice_chat Mock.clip (PList []) Mock.blocking_reply).2
            (ReplyWriteRaises "Permission denied")) as Hreply.
  { split; [|left; reflexivity].
    exists Mock.clip_request, Mock.audio_reply.
    split; [vm_compute; reflexivity|]. split; [reflexivity|discriminate]. }
  assert (raised Mock.clip (Mock.replying Stage.garbled_reply)
            (voice_chat Mock.clip (PList []) (Mock.replying Stage.garbled_reply)).2
            (BodyDecodeRaises Stage.garbled_reply)) as Hbody.
  { split; [exists Mock.clip_request; vm_compute; reflexivity|].
    split; [discriminate|]. split; [discriminate|]. vm_compute. exact I. }
  split; [exact (proj2 (voice_chat_total _ _ _) _ Hserialise)|].
  split; [exact (proj2 (voice_chat_total _ _ _) _ Hrecording)|].
  split; [exact (proj2 (voice_chat_total _ _ _) _ Hupload)|].
  split; [exact (proj2 (voice_chat_total _ _ _) _ Htransport)|].
  split; [exact (proj2 (voice_chat_total _ _ _) _ Hreply)|].
  exact (proj2 (voice_chat_total _ _ _) _ Hbody).
Defined.


(** ** Concrete runs of the further properties *)

(** [non_list_history_raises] on the JSON object [{}] as history and a
    server that answers with audio. *)
Lemma non_list_history_raises_witness :
  concat_raises (PDict ∅)
    (OtherError "unsupported operand type(s) for +: 'dict' and 'list'")
  /\ (voice_chat Mock.clip (PDict ∅) (Stage.saved (PDict ∅))).1
     = Raise (OtherError "unsupported operand type(s) for +: 'dict' and 'list'").
Proof.
  assert (concat_raises (PDict ∅)
            (OtherError "unsupported operand type(s) for +: 'dict' and 'list'"))
    as Hadd by (intros l w; reflexivity).
  split; [exact Hadd|].
  destruct (@non_list_history_raises Mock.platform 16000 [0; 1; 2] (PDict ∅)
              (Stage.saved (PDict ∅)) _ Hadd) as [Hsave|Hraise].
  - exfalso. revert Hsave. vm_compute. discriminate.
  - exact Hraise.
Defined.

(** [list_history_stays_list] on a timeout after one earlier turn. *)
Lemma list_history_stays_list_witness :
  (voice_chat Mock.clip (PList (as_entry <$> Stage.earlier)) Mock.timing_out).1
  = Ok (None,
        PList ((as_entry <$> Stage.earlier)
               ++ [error_turn (transport_error_text (Timeout "Read timed out."))
                              "12:00:01"]),
        transport_error_text (Timeout "Read timed out."))
  /\ exists h',
       PList ((as_entry <$> Stage.earlier)
              ++ [error_turn (transport_error_text (Timeout "Read timed out."))
                             "12:00:01"])
       = PList h'.
Proof.
  assert ((voice_chat Mock.clip (PList (as_entry <$> Stage.earlier)) Mock.timing_out).1
          = Ok (None,
                PList ((as_entry <$> Stage.earlier)
                       ++ [error_turn (transport_error_text (Timeout "Read timed out."))
                                      "12:00:01"]),
                transport_error_text (Timeout "Read timed out."))) as Hrun
    by (vm_compute; reflexivity).
  split; [exact Hrun|].
  exact (list_history_stays_list _ _ _ _ _ _ Hrun).
Defined.



(** [uploads_recording] on a server that answers. *)
Lemma uploads_recording_witness :
  wavfile_encode 16000 [0; 1; 2] = inr (Mock.riff [0; 1; 2])
  /\ disk (Mock.replying Mock.audio_reply)
          (input_audio_path (epoch (Mock.replying Mock.audio_reply))) = Sound
  /\ exchanges (voice_chat Mock.clip (PList []) (Mock.replying Mock.audio_reply)).2
     = exchanges (Mock.replying Mock.audio_reply)
       ++ [(Mock.clip_request, Responds Mock.audio_reply)]
  /\ Mock.clip_request = upload_request 1700000000 (Mock.riff [0; 1; 2]).
Proof.
  assert (exchanges (voice_chat Mock.clip (PList []) (Mock.replying Mock.audio_reply)).2
          = exchanges (Mock.replying Mock.audio_reply)
            ++ [(Mock.clip_request, Responds Mock.audio_reply)]) as Hx
    by (vm_compute; reflexivity).
  split; [reflexivity|]. split; [reflexivity|]. split; [exact Hx|].
  exact (uploads_recording 16000 [0; 1; 2] [] (Mock.replying Mock.audio_reply)
           (Mock.riff [0; 1; 2]) _ _ eq_refl eq_refl Hx).
Defined.

(** [unserialisable_recording] on a sample rate of zero. *)
Lemma unserialisable_recording_witness :
  wavfile_encode 0 [0; 1; 2] = inl "sample rate must be positive"
  /\ (voice_chat Stage.bad_clip (PList []) Mock.timing_out).1
     = Ok (failure [] "⚠️ Terjadi kesalahan: sample rate must be positive" "12:00:01")
  /\ exchanges (voice_chat Stage.bad_clip (PList []) Mock.timing_out).2
     = exchanges Mock.timing_out.
Proof.
  split; [reflexivity|].
  exact (unserialisable_recording 0 [0; 1; 2] [] Mock.timing_out _ eq_refl).
Defined.

(** [touches_three_paths] on a file of somebody else. *)
Lemma touches_three_paths_witness :
  files (voice_chat Mock.clip (PList []) (Mock.replying Mock.audio_reply)).2 !! "/tmp/notes.txt"
  = files (Mock.replying Mock.audio_reply) !! "/tmp/notes.txt".
Proof.
  apply touches_three_paths; vm_compute; discriminate.
Defined.

(** [history_append_only] on a timeout after one earlier turn. *)
Lemma history_append_only_witness :
  exists h' msg,
    (voice_chat Mock.clip (PList (as_entry <$> Stage.earlier)) Mock.timing_out).1
    = Ok (None, PList h', msg)
    /\ (h' = as_entry <$> Stage.earlier
        \/ exists label reply,
             h' = (as_entry <$> Stage.earlier)
                  ++ [PList [PStr label; reply; PStr (wall_clock Mock.timing_out)]]).
Proof.
  eexists _, _.
  assert ((voice_chat Mock.clip (PList (as_entry <$> Stage.earlier)) Mock.timing_out).1
          = Ok (None,
                PList ((as_entry <$> Stage.earlier)
                ++ [error_turn (transport_error_text (Timeout "Read timed out."))
                               "12:00:01"]),
                transport_error_text (Timeout "Read timed out."))) as Hrun
    by (vm_compute; reflexivity).
  split; [exact Hrun|].
  exact (history_append_only _ _ _ _ _ _ Hrun).
Defined.

(** [success_status] on a successful call. *)
Lemma success_status_witness :
  (voice_chat Mock.clip (PList []) (Mock.replying Mock.audio_reply)).1
  = Ok (Some "/tmp/tts_output_1700000002.wav", PList [success_turn "12:00:01"],
        "✅ Berhasil mendapatkan respons")
  /\ (is_Some (Some "/tmp/tts_output_1700000002.wav")
      <-> "✅ Berhasil mendapatkan respons" = "✅ Berhasil mendapatkan respons").
Proof.
  assert ((voice_chat Mock.clip (PList []) (Mock.replying Mock.audio_reply)).1
          = Ok (Some "/tmp/tts_output_1700000002.wav", PList [success_turn "12:00:01"],
                "✅ Berhasil mendapatkan respons")) as Hrun
    by (vm_compute; reflexivity).
  split; [exact Hrun|].
  exact (success_status _ _ _ _ _ _ Hrun).
Defined.

(** [reply_file_needs_body] on a successful call. *)
Lemma reply_file_needs_body_witness :
  files (voice_chat Mock.clip (PList []) (Mock.replying Mock.audio_reply)).2
    !! output_audio_path (1700000000 + 2)
  <> files (Mock.replying Mock.audio_reply) !! output_audio_path (1700000000 + 2)
  /\ exists q r,
       exchanges (voice_chat Mock.clip (PList []) (Mock.replying Mock.audio_reply)).2
       = exchanges (Mock.replying Mock.audio_reply) ++ [(q, Responds r)]
       /\ status_code r = 200 /\ content r <> "".
Proof.
  assert (files (voice_chat Mock.clip (PList []) (Mock.replying Mock.audio_reply)).2
            !! output_audio_path (1700000000 + 2)
          <> files (Mock.replying Mock.audio_reply)
               !! output_audio_path (1700000000 + 2)) as Hchanged
    by (vm_compute; discriminate).
  split; [exact Hchanged|].
  exact (reply_file_needs_body Mock.clip [] (Mock.replying Mock.audio_reply) Hchanged).
Defined.

(** [save_chat_history_contained] on a filesystem that refuses the write. *)
Lemma save_chat_history_contained_witness :
  exists w',
    save_chat_history (PList [success_turn "12:00:01"]) Mock.blocking_history = (Ok tt, w')
    /\ files w' !! "/tmp/notes.txt" = files Mock.blocking_history !! "/tmp/notes.txt".
Proof.
  destruct (save_chat_history_contained (PList [success_turn "12:00:01"])
              Mock.blocking_history)
    as (w' & Hsave & Hother).
  exists w'. split; [exact Hsave|].
  apply Hother. vm_compute. discriminate.
Defined.

(** [save_overwrites] on two histories. *)
Lemma save_overwrites_witness :
  disk Mock.timing_out HISTORY_PATH = Sound
  /\ unreadable Mock.timing_out HISTORY_PATH = None
  /\ json_loads (json_dumps (PList [success_turn "12:00:05"]))
     = Some (PList [success_turn "12:00:05"])
  /\ (load_chat_history
        (save_chat_history (PList [success_turn "12:00:05"])
           (save_chat_history (PList (as_entry <$> Stage.earlier)) Mock.timing_out).2).2).1
     = Ok (PList [success_turn "12:00:05"]).
Proof.
  assert (json_loads (json_dumps (PList [success_turn "12:00:05"]))
          = Some (PList [success_turn "12:00:05"])) as Hjson
    by (vm_compute; reflexivity).
  split; [reflexivity|]. split; [reflexivity|]. split; [exact Hjson|].
  exact (save_overwrites (as_entry <$> Stage.earlier) [success_turn "12:00:05"]
           Mock.timing_out eq_refl eq_refl Hjson).
Defined.

(** [load_chat_history_reads] on a history file that holds a JSON object. *)
Lemma load_chat_history_reads_witness :
  files (Stage.saved (PDict {[ "a" := PInt 1 ]})) !! HISTORY_PATH
  = Some (Mock.dumps (PDict {[ "a" := PInt 1 ]}))
  /\ unreadable (Stage.saved (PDict {[ "a" := PInt 1 ]})) HISTORY_PATH = None
  /\ json_loads (Mock.dumps (PDict {[ "a" := PInt 1 ]})) = Some (PDict {[ "a" := PInt 1 ]})
  /\ load_chat_history (Stage.saved (PDict {[ "a" := PInt 1 ]}))
     = (Ok (PDict {[ "a" := PInt 1 ]}), Stage.saved (PDict {[ "a" := PInt 1 ]})).
Proof.
  assert (files (Stage.saved (PDict {[ "a" := PInt 1 ]})) !! HISTORY_PATH
          = Some (Mock.dumps (PDict {[ "a" := PInt 1 ]}))) as Hfile
    by (vm_compute; reflexivity).
  assert (json_loads (Mock.dumps (PDict {[ "a" := PInt 1 ]}))
          = Some (PDict {[ "a" := PInt 1 ]})) as Hjson
    by (vm_compute; reflexivity).
  split; [exact Hfile|]. split; [reflexivity|]. split; [exact Hjson|].
  exact (proj1 (load_chat_history_reads _ _ Hfile) _ eq_refl Hjson).
Defined.

(** [clear_history_idempotent] on a history file that can be removed, and
    on one that cannot. *)
Lemma clear_history_idempotent_witness :
  clear_history (clear_history Mock.corrupt_history).2
  = (Ok ([], "🗑️ Riwayat percakapan telah dihapus"), (clear_history Mock.corrupt_history).2)
  /\ clear_history (clear_history Stage.pinned_history).2
     = (Raise (OtherError "Operation not permitted"), (clear_history Stage.pinned_history).2)
  /\ files (clear_history Mock.corrupt_history).2 !! "/tmp/notes.txt"
     = files Mock.corrupt_history !! "/tmp/notes.txt".
Proof.
  destruct (clear_history_idempotent Mock.corrupt_history) as (Hagain & _ & Hother).
  destruct (clear_history_idempotent Stage.pinned_history) as (_ & Hpinned & _).
  assert (is_Some (files Stage.pinned_history !! HISTORY_PATH)) as Hfile
    by (by eexists).
  split; [exact (Hagain (or_intror eq_refl))|].
  split; [exact (proj2 (Hpinned _ Hfile eq_refl))|].
  apply Hother. vm_compute. discriminate.
Defined.

(** [success_survives_restart] on a successful call. *)
Lemma success_survives_restart_witness :
  (voice_chat Mock.clip (PList []) (Mock.replying Mock.audio_reply)).1
  = Ok (Some "/tmp/tts_output_1700000002.wav", PList [success_turn "12:00:01"],
        "✅ Berhasil mendapatkan respons")
  /\ json_loads (json_dumps (PList [success_turn "12:00:01"]))
     = Some (PList [success_turn "12:00:01"])
  /\ (load_chat_history (voice_chat Mock.clip (PList []) (Mock.replying Mock.audio_reply)).2).1
     = Ok (PList [success_turn "12:00:01"]).
Proof.
  assert ((voice_chat Mock.clip (PList []) (Mock.replying Mock.audio_reply)).1
          = Ok (Some "/tmp/tts_output_1700000002.wav", PList [success_turn "12:00:01"],
                "✅ Berhasil mendapatkan respons")) as Hrun
    by (vm_compute; reflexivity).
  assert (json_loads (json_dumps (PList [success_turn "12:00:01"]))
          = Some (PList [success_turn "12:00:01"])) as Hjson
    by (vm_compute; reflexivity).
  split; [exact Hrun|]. split; [exact Hjson|].
  exact (success_survives_restart _ _ _ _ _ _ Hrun eq_refl eq_refl Hjson).
Defined.

(** [error_lost_on_restart] on a timeout. *)
Lemma error_lost_on_restart_witness :
  (voice_chat Mock.clip (PList []) Mock.timing_out).1
  = Ok (None,
        PList [error_turn (transport_error_text (Timeout "Read timed out.")) "12:00:01"],
        transport_error_text (Timeout "Read timed out."))
  /\ (load_chat_history (voice_chat Mock.clip (PList []) Mock.timing_out).2).1
     = (load_chat_history Mock.timing_out).1.
Proof.
  assert ((voice_chat Mock.clip (PList []) Mock.timing_out).1
          = Ok (None,
                PList [error_turn (transport_error_text (Timeout "Read timed out.")) "12:00:01"],
                transport_error_text (Timeout "Read timed out."))) as Hrun
    by (vm_compute; reflexivity).
  split; [exact Hrun|].
  exact (error_lost_on_restart _ _ _ _ _ Hrun).
Defined.

(** [format_chat_history_transcript] on one turn. *)
Lemma format_chat_history_transcript_witness :
  Stage.earlier <> []
  /\ format_chat_history (PList (as_entry <$> Stage.earlier))
     = Some (Ok ("<div class='chat-container'>" +:+ transcript Stage.earlier +:+ "</div>")).
Proof.
  assert (Stage.earlier <> []) as Hne by discriminate.
  split; [exact Hne|]. exact (format_chat_history_transcript _ Hne).
Defined.

(** [format_chat_history_malformed] on an entry of one value. *)
Lemma format_chat_history_malformed_witness :
  length [PStr "halo"] <> 3%nat
  /\ exists e,
       format_chat_history
         (PList ((as_entry <$> Stage.earlier) ++ PList [PStr "halo"] :: []))
       = Some (Raise e).
Proof.
  assert (length [PStr "halo"] <> 3%nat) as Hlen by discriminate.
  split; [exact Hlen|].
  exact (format_chat_history_malformed Stage.earlier [PStr "halo"] [] Hlen).
Defined.

(** [well_formed_history_kept] on a timeout after one earlier turn. *)
Lemma well_formed_history_kept_witness :
  exists h' msg,
    (voice_chat Mock.clip (PList (as_entry <$> Stage.earlier)) Mock.timing_out).1
    = Ok (None, PList h', msg)
    /\ exists turns', h' = as_entry <$> turns'.
Proof.
  eexists _, _.
  assert ((voice_chat Mock.clip (PList (as_entry <$> Stage.earlier)) Mock.timing_out).1
          = Ok (None,
                PList ((as_entry <$> Stage.earlier)
                ++ [error_turn (transport_error_text (Timeout "Read timed out."))
                               "12:00:01"]),
                transport_error_text (Timeout "Read timed out."))) as Hrun
    by (vm_compute; reflexivity).
  split; [exact Hrun|].
  exact (well_formed_history_kept _ _ _ _ _ _ Hrun).
Defined.

(** [submit_shows_error] on a timeout after one earlier turn. *)
Lemma submit_shows_error_witness :
  Mock.clip <> None
  /\ (submit_btn_click Mock.clip (PList (as_entry <$> Stage.earlier)) Mock.timing_out).1
     = Ok ((None,
            PList ((as_entry <$> Stage.earlier)
            ++ [error_turn (transport_error_text (Timeout "Read timed out.")) "12:00:01"]),
            transport_error_text (Timeout "Read timed out.")),
           Some (Ok ("<div class='chat-container'>" +:+ transcript Stage.earlier
                     +:+ user_bubble (transport_error_text (Timeout "Read timed out."))
                           (wall_clock Mock.timing_out)
                     +:+ "</div>"))).
Proof.
  assert ((voice_chat Mock.clip (PList (as_entry <$> Stage.earlier)) Mock.timing_out).1
          = Ok (None,
                PList ((as_entry <$> Stage.earlier)
                ++ [error_turn (transport_error_text (Timeout "Read timed out."))
                               "12:00:01"]),
                transport_error_text (Timeout "Read timed out."))) as Hrun
    by (vm_compute; reflexivity).
  assert (Mock.clip <> None) as Hclip by discriminate.
  split; [exact Hclip|].
  apply (submit_shows_error _ _ _ _ _ Hrun Hclip). discriminate.
Defined.

(** [submit_shows_reply] on a successful call after one earlier turn. *)
Lemma submit_shows_reply_witness :
  (submit_btn_click Mock.clip (PList (as_entry <$> Stage.earlier))
     (Mock.replying Mock.audio_reply)).1
  = Ok ((Some "/tmp/tts_output_1700000002.wav",
         PList ((as_entry <$> Stage.earlier) ++ [success_turn "12:00:01"]),
         "✅ Berhasil mendapatkan respons"),
        Some (Ok ("<div class='chat-container'>" +:+ transcript Stage.earlier
                  +:+ user_bubble "🎤 Pesan Suara" (wall_clock (Mock.replying Mock.audio_reply))
                  +:+ assistant_bubble "🔊 Balasan Suara"
                        (wall_clock (Mock.replying Mock.audio_reply))
                  +:+ "</div>"))).
Proof.
  apply (submit_shows_reply Mock.clip Stage.earlier (Mock.replying Mock.audio_reply)).
  vm_compute. reflexivity.
Defined.

(** [clear_shows_placeholder] on a history file that can be removed, and
    on one that cannot. *)
Lemma clear_shows_placeholder_witness :
  (exists w',
     clear_btn_click Mock.corrupt_history
     = (Ok ([], "🗑️ Riwayat percakapan telah dihapus",
            Some (Ok empty_history_markup)), w')
     /\ files w' !! HISTORY_PATH = None)
  /\ clear_btn_click Stage.pinned_history
     = (Raise (OtherError "Operation not permitted"), Stage.pinned_history).
Proof.
  assert (is_Some (files Stage.pinned_history !! HISTORY_PATH)) as Hfile
    by (by eexists).
  split.
  - exact (proj1 (clear_shows_placeholder Mock.corrupt_history) (or_intror eq_refl)).
  - exact (proj2 (clear_shows_placeholder Stage.pinned_history) _ Hfile eq_refl).
Defined.

(** [demo_load_shows_saved] on a history file with one turn. *)
Lemma demo_load_shows_saved_witness :
  json_loads (Mock.dumps (PList (as_entry <$> Stage.earlier)))
  = Some (PList (as_entry <$> Stage.earlier))
  /\ demo_load (Stage.saved (PList (as_entry <$> Stage.earlier)))
     = (Ok (PList (as_entry <$> Stage.earlier),
            Some (Ok ("<div class='chat-container'>" +:+ transcript Stage.earlier
                      +:+ "</div>"))),
        Stage.saved (PList (as_entry <$> Stage.earlier))).
Proof.
  assert (json_loads (Mock.dumps (PList (as_entry <$> Stage.earlier)))
          = Some (PList (as_entry <$> Stage.earlier))) as Hjson
    by (vm_compute; reflexivity).
  split; [exact Hjson|].
  apply (demo_load_shows_saved _ (Mock.dumps (PList (as_entry <$> Stage.earlier))));
    [vm_compute; reflexivity | reflexivity | exact Hjson | discriminate].
Defined.

(** [demo_load_unvalidated] on a history file that holds the number 5. *)
Lemma demo_load_unvalidated_witness :
  json_loads (Mock.dumps (PInt 5)) = Some (PInt 5)
  /\ exists e, demo_load (Stage.saved (PInt 5))
               = (Ok (PInt 5, Some (Raise e)), Stage.saved (PInt 5)).
Proof.
  assert (json_loads (Mock.dumps (PInt 5)) = Some (PInt 5)) as Hjson
    by (vm_compute; reflexivity).
  split; [exact Hjson|].
  apply (demo_load_unvalidated _ (Mock.dumps (PInt 5)) 5);
    [vm_compute; reflexivity | reflexivity | exact Hjson | discriminate].
Defined.
